(** * Locale lifecycle and translation lookup of the portfolio site

    A shallow embedding of
      - [src/hooks/useLanguage.js]       (locale registry, start-up choice,
                                          persistence effect, [switchLanguage])
      - [src/contexts/LanguageContext.js] (the translation function [t])
      - the components that use them: the language menu, the navigation bar
        and footer, the contact form, the page of a blog post
    together with the part of JavaScript's value semantics these files rely
    on: truthiness, [ToString], property lookup with optional chaining,
    [String.prototype.split] on a one-character separator and
    [String.prototype.replace] with the global pattern [/\{\{(\w+)\}\}/g].

    An expression yields a value or throws.  Text is held in its UTF-8
    form: the characters the code inspects ('.', '-', the two braces and the
    word characters of [\w]) are ASCII, so scanning the bytes finds what
    scanning the text finds.  Where JavaScript counts, a string's [length]
    and its indices, the UTF-16 code units are computed from the bytes.
    A render and the effect that runs after it are two steps. *)

From Stdlib Require Import String Ascii List ZArith Lia Bool.
From Stdlib Require Import DecimalString DecimalNat.
From stdpp Require Import base gmap strings.
Import ListNotations.
Local Open Scope string_scope.

(* ===================================================================== *)
(** ** JavaScript values                                                   *)
(* ===================================================================== *)

Module Js.

#[local] Set Warnings "-register-all".

(** What evaluating an expression comes to: a value, or a thrown
    [TypeError]. *)
Inductive result (A : Type) : Type :=
| Return (a : A)
| Throw.

Arguments Return {A} a.
Arguments Throw {A}.

Definition bind {A B : Type} (r : result A) (f : A -> result B) : result B :=
  match r with
  | Return a => f a
  | Throw => Throw
  end.

(** The values that occur in the two files: catalog entries are strings or
    nested object literals, interpolation parameters are strings or numbers
    (the footer passes the current year), a string's [length] is a number,
    and a plain object inherits the members of [Object.prototype], which are
    built-in objects of the host.  Numbers are integers; strings hold the
    UTF-8 form of their text. *)
Inductive value : Type :=
| VUndefined
| VNull
| VNumber (n : Z)
| VString (s : string)
| VObject (props : list (string * value))
| VBuiltin (name : string).

(** The property table of an object literal: one entry per name, in
    insertion order. *)
Definition object := list (string * value).

(** [!v] is [negb (truthy v)]. *)
Definition truthy (v : value) : bool :=
  match v with
  | VUndefined | VNull => false
  | VNumber n => negb (n =? 0)%Z
  | VString s => negb (String.eqb s "")
  | VObject _ | VBuiltin _ => true
  end.

(** [null] and [undefined], the two values optional chaining stops at. *)
Definition nullish (v : value) : bool :=
  match v with VUndefined | VNull => true | _ => false end.

(** [typeof v === 'string'] *)
Definition is_string (v : value) : bool :=
  match v with VString _ => true | _ => false end.

(** The text of a value that [ToString] prints without running code of the
    caller (see [printable] below): an integer in decimal, an object
    literal through [Object.prototype.toString], a built-in function as
    native code. *)
Definition to_string (v : value) : string :=
  match v with
  | VUndefined => "undefined"
  | VNull => "null"
  | VNumber n => NilZero.string_of_int (Z.to_int n)
  | VString s => s
  | VObject _ => "[object Object]"
  | VBuiltin name =>
      if String.eqb name "Object.prototype" then "[object Object]"
      else String.append "function "
             (String.append name "() { [native code] }")
  end.

(** Own property of an object literal. *)
Fixpoint own (k : string) (props : object) : option value :=
  match props with
  | [] => None
  | (k', v) :: rest => if String.eqb k k' then Some v else own k rest
  end.

(** The values for which [to_string] is what [ToString] yields: every
    primitive, with integers up to 2^53 (beyond, a number need not be an
    integer the engine can hold, and from 10^21 on it is printed with an
    exponent), built-in objects, and object literals that do not bring a
    [toString] of their own. *)
Definition printable (v : value) : bool :=
  match v with
  | VNumber n => (Z.abs n <=? 9007199254740992)%Z
  | VObject props =>
      match own "toString" props with None => true | Some _ => false end
  | _ => true
  end.

(** An object literal whose own [toString] is no function, and whose
    [valueOf] is the inherited one (which returns the object) or no
    function either: [ToString] finds nothing to call and throws. *)
Definition unconvertible (v : value) : bool :=
  match v with
  | VObject props =>
      match own "toString" props with
      | Some (VBuiltin _) | None => false
      | Some _ =>
          match own "valueOf" props with
          | Some (VBuiltin _) => false
          | _ => true
          end
      end
  | _ => false
  end.

(** The members every object literal inherits from [Object.prototype]:
    eleven functions and the [__proto__] accessor, which yields the
    prototype itself. *)
Definition Object_prototype_functions : list (string * string) :=
  [ ("constructor", "Object");
    ("hasOwnProperty", "hasOwnProperty");
    ("isPrototypeOf", "isPrototypeOf");
    ("propertyIsEnumerable", "propertyIsEnumerable");
    ("toLocaleString", "toLocaleString");
    ("toString", "toString");
    ("valueOf", "valueOf");
    ("__defineGetter__", "__defineGetter__");
    ("__defineSetter__", "__defineSetter__");
    ("__lookupGetter__", "__lookupGetter__");
    ("__lookupSetter__", "__lookupSetter__") ].

Fixpoint lookup_name (k : string) (l : list (string * string)) : option string :=
  match l with
  | [] => None
  | (k', f) :: rest => if String.eqb k k' then Some f else lookup_name k rest
  end.

Definition Object_prototype (k : string) : value :=
  if String.eqb k "__proto__" then VBuiltin "Object.prototype"
  else match lookup_name k Object_prototype_functions with
       | Some f => VBuiltin f
       | None => VUndefined
       end.

(** [obj[k]] on an object literal: the own property if there is one,
    otherwise what the prototype has under that name. *)
Definition member (props : object) (k : string) : value :=
  match own k props with
  | Some v => v
  | None => Object_prototype k
  end.

(** [Object.keys(o).length > 0] *)
Definition has_keys (props : object) : bool :=
  match props with [] => false | _ :: _ => true end.

(** The [length] of the eleven functions above: the number of their
    parameters. *)
Definition arities : list (string * Z) :=
  [ ("Object", 1%Z); ("hasOwnProperty", 1%Z); ("isPrototypeOf", 1%Z);
    ("propertyIsEnumerable", 1%Z); ("toLocaleString", 0%Z);
    ("toString", 0%Z); ("valueOf", 0%Z);
    ("__defineGetter__", 2%Z); ("__defineSetter__", 2%Z);
    ("__lookupGetter__", 1%Z); ("__lookupSetter__", 1%Z) ].

Fixpoint arity (name : string) (l : list (string * Z)) : option Z :=
  match l with
  | [] => None
  | (f, n) :: rest => if String.eqb name f then Some n else arity name rest
  end.

(** *** UTF-16 code units *)

(** JavaScript counts and indexes a string by UTF-16 code units.  A
    character of one to three UTF-8 bytes is one unit; a character of four
    bytes is two units, a pair of surrogates.  A surrogate on its own is
    written here in the three-byte form of its code. *)
Definition continuation_bytes (c : ascii) : nat :=
  let n := nat_of_ascii c in
  if (n <? 192)%nat then 0
  else if (n <? 224)%nat then 1
  else if (n <? 240)%nat then 2
  else if (n <? 248)%nat then 3
  else 0.

Definition three_bytes (u : nat) : string :=
  String (ascii_of_nat (224 + u / 4096))
    (String (ascii_of_nat (128 + (u / 64) mod 64))
       (String (ascii_of_nat (128 + u mod 64)) EmptyString)).

(** The units of one character, given by its bytes. *)
Definition units_of_character (bytes : string) : list string :=
  match bytes with
  | String b0 (String b1 (String b2 (String b3 EmptyString))) =>
      let v := ((nat_of_ascii b0 - 240) * (64 * 4096)
                + (nat_of_ascii b1 - 128) * 4096
                + (nat_of_ascii b2 - 128) * 64
                + (nat_of_ascii b3 - 128)) - 16 * 4096 in
      [three_bytes (54 * 1024 + v / 1024); three_bytes (55 * 1024 + v mod 1024)]
  | _ => [bytes]
  end.

(** [pending] holds the bytes of the character being read, [need] the
    number of its bytes still to come. *)
Fixpoint units_from (pending : string) (need : nat) (s : string)
  : list string :=
  match s with
  | EmptyString =>
      match pending with
      | EmptyString => []
      | _ => units_of_character pending
      end
  | String c rest =>
      match need with
      | O =>
          match continuation_bytes c with
          | O => String c EmptyString :: units_from EmptyString 0 rest
          | S n => units_from (String c EmptyString) (S n) rest
          end
      | S O =>
          (units_of_character (String.append pending (String c EmptyString))
           ++ units_from EmptyString 0 rest)%list
      | S n =>
          units_from (String.append pending (String c EmptyString)) n rest
      end
  end.

Definition units (s : string) : list string := units_from EmptyString 0 s.

(** Own properties of a string: [length], the number of its code units, and
    the one-unit string at each index, named by the canonical decimal
    numeral of the index. *)
Definition numeral (i : nat) : string := NilZero.string_of_uint (Nat.to_uint i).

Definition string_own (s : string) (k : string) : option value :=
  if String.eqb k "length"
  then Some (VNumber (Z.of_nat (List.length (units s))))
  else match List.find (fun i => String.eqb (numeral i) k)
                       (List.seq 0 (List.length (units s))) with
       | Some i => Some (VString (List.nth i (units s) EmptyString))
       | None => None
       end.

Section Host.

(** What the host yields for a member the model does not list: the methods
    of [String.prototype], [Number.prototype] and [Function.prototype], the
    further properties of built-in objects.  It is left abstract, and may
    throw; results are stated for every such host. *)
Variable inherited : value -> string -> result value.

(** [ToString] of a value that is neither [printable] nor [unconvertible]:
    an object whose own [toString] or [valueOf] is a function to be called,
    a number beyond 2^53.  Left abstract as well. *)
Variable convert : value -> result string.

(** A member of a built-in object.  [Object.prototype] has its twelve
    members and no prototype.  The eleven functions have [length] and
    [name]; [caller] and [arguments] are the accessors of
    [Function.prototype] that throw. *)
Definition builtin_member (name : string) (k : string) : result value :=
  if String.eqb name "Object.prototype"
  then Return (if String.eqb k "__proto__" then VNull else Object_prototype k)
  else match arity name arities with
       | Some n =>
           if String.eqb k "length" then Return (VNumber n)
           else if String.eqb k "name" then Return (VString name)
           else if String.eqb k "caller" || String.eqb k "arguments"
                then Throw
                else inherited (VBuiltin name) k
       | None => inherited (VBuiltin name) k
       end.

(** [v?.[k]] *)
Definition get (v : value) (k : string) : result value :=
  match v with
  | VUndefined | VNull => Return VUndefined
  | VObject props => Return (member props k)
  | VString s =>
      match string_own s k with
      | Some x => Return x
      | None => inherited v k
      end
  | VNumber _ => inherited v k
  | VBuiltin name => builtin_member name k
  end.

(** [ToString], as [replace] applies it to what its callback returns. *)
Definition ToString (v : value) : result string :=
  if printable v then Return (to_string v)
  else if unconvertible v then Throw
  else convert v.

End Host.

(** [s.split(sep)] for a one-character separator: never empty, the empty
    string splits into one empty segment. *)
Fixpoint split (sep : ascii) (s : string) : list string :=
  match s with
  | EmptyString => [EmptyString]
  | String c rest =>
      if Ascii.eqb c sep then EmptyString :: split sep rest
      else match split sep rest with
           | seg :: segs => String c seg :: segs
           | [] => [String c EmptyString]
           end
  end.

(** *** The pattern [/\{\{(\w+)\}\}/g] *)

(** [\w] is [A-Za-z0-9_]. *)
Definition is_word (c : ascii) : bool :=
  let n := nat_of_ascii c in
  (((48 <=? n) && (n <=? 57)) || ((65 <=? n) && (n <=? 90))
   || ((97 <=? n) && (n <=? 122)) || (n =? 95))%nat.

(** The longest run of word characters at the front, and what follows. *)
Fixpoint span_word (s : string) : string * string :=
  match s with
  | String c rest =>
      if is_word c then let (w, r) := span_word rest in (String c w, r)
      else (EmptyString, s)
  | EmptyString => (EmptyString, EmptyString)
  end.

(** A match anchored at the front of [s]: the captured name.  [\w+] is
    greedy and the closing braces are not word characters, so only the
    longest run can be followed by them. *)
Definition match_here (s : string) : option string :=
  match s with
  | String "{"%char (String "{"%char body) =>
      match span_word body with
      | (String c w, String "}"%char (String "}"%char _)) => Some (String c w)
      | _ => None
      end
  | _ => None
  end.

(** The text of a match with captured name [p]. *)
Definition token (p : string) : string :=
  String.append "{{" (String.append p "}}").

(** [s.replace(/\{\{(\w+)\}\}/g, f)]: scan from the left; at a match emit
    the text of what [f match name] returns and resume after the match,
    otherwise copy one code unit.  [f] stands for the callback together
    with the conversion of its result to a string, which may throw; the
    matches are answered from left to right.  [skip] counts the code units
    of the current match still to be passed over. *)
Fixpoint replace_from (f : string -> string -> result string) (skip : nat)
                      (s : string) : result string :=
  match s with
  | EmptyString => Return EmptyString
  | String c rest =>
      match skip with
      | S n => replace_from f n rest
      | O =>
          match match_here s with
          | Some p =>
              bind (f (token p) p) (fun x =>
              bind (replace_from f (String.length p + 3) rest) (fun r =>
              Return (String.append x r)))
          | None =>
              bind (replace_from f 0 rest) (fun r => Return (String c r))
          end
      end
  end.

Definition replace (f : string -> string -> result string) (s : string)
  : result string :=
  replace_from f 0 s.

End Js.

(* ===================================================================== *)
(** ** src/hooks/useLanguage.js                                            *)
(* ===================================================================== *)

Module UseLanguage.
Import Js.

Definition locale (code name flag : string) : value :=
  VObject [("code", VString code); ("name", VString name); ("flag", VString flag)].

Definition SUPPORTED_LANGUAGES : object :=
  [ ("en", locale "en" "English" "🇺🇸");
    ("tr", locale "tr" "Türkçe" "🇹🇷");
    ("ar", locale "ar" "العربية" "🇸🇦");
    ("it", locale "it" "Italiano" "🇮🇹") ].

Definition DEFAULT_LANGUAGE : string := "en".
Definition STORAGE_KEY : string := "preferred-language".

(** A code is registered when the registry has an entry of its own for it. *)
Definition registered (code : string) : bool :=
  match own code SUPPORTED_LANGUAGES with Some _ => true | None => false end.

(** The test the hook applies: [SUPPORTED_LANGUAGES[code]] is truthy. *)
Definition supported (code : string) : bool :=
  truthy (member SUPPORTED_LANGUAGES code).

(** [document.documentElement], as far as the hook writes it. *)
Record document : Type := { lang : string; dir : string }.

(** The hook's state together with the two browser objects it writes. *)
Record app : Type :=
  { currentLanguage : string;
    localStorage : gmap string string;
    documentElement : document }.

(** [navigator.language.split('-')[0]] *)
Definition primary_subtag (navigator_language : string) : string :=
  List.hd "" (split "-" navigator_language).

(** The initialiser passed to [useState]; [getItem] yields [None] for
    [null]. *)
Definition initialLanguage (storage : gmap string string)
                           (navigator_language : string) : string :=
  let savedLanguage := storage !! STORAGE_KEY in
  let browserLanguage := primary_subtag navigator_language in
  let fromBrowser :=
    if supported browserLanguage then browserLanguage else DEFAULT_LANGUAGE in
  match savedLanguage with
  | Some saved =>
      if truthy (VString saved) && supported saved then saved else fromBrowser
  | None => fromBrowser
  end.

(** What the first render sees: the state as initialised, the browser
    objects as they were found. *)
Definition first_render (storage : gmap string string)
                        (navigator_language : string) (doc : document) : app :=
  {| currentLanguage := initialLanguage storage navigator_language;
     localStorage := storage;
     documentElement := doc |}.

(** The body of the effect, run with the language of the render it belongs
    to. *)
Definition persist (a : app) : app :=
  let code := currentLanguage a in
  {| currentLanguage := code;
     localStorage := <[STORAGE_KEY := code]> (localStorage a);
     documentElement :=
       {| lang := code;
          dir := if String.eqb code "ar" then "rtl" else "ltr" |} |}.

(** The first render and the effect that runs after it. *)
Definition mount (storage : gmap string string) (navigator_language : string)
                 (doc : document) : app :=
  persist (first_render storage navigator_language doc).

(** [setCurrentLanguage]: the state is replaced, nothing else is touched. *)
Definition setCurrentLanguage (code : string) (a : app) : app :=
  {| currentLanguage := code;
     localStorage := localStorage a;
     documentElement := documentElement a |}.

(** The body of [switchLanguage]: what the render after the call sees. *)
Definition switchLanguage_call (languageCode : string) (a : app) : app :=
  if supported languageCode then setCurrentLanguage languageCode a else a.

(** After a render the effect runs if [currentLanguage], its one
    dependency, differs from the value of the render before. *)
Definition after_render (previous a : app) : app :=
  if String.eqb (currentLanguage a) (currentLanguage previous) then a
  else persist a.

(** A call of [switchLanguage] together with the render it causes and the
    effect after that render: the state the hook is left in. *)
Definition switchLanguage (languageCode : string) (a : app) : app :=
  after_render a (switchLanguage_call languageCode a).

(** The states the hook is left in: after the first render and its effect,
    and after any call of [switchLanguage] with what follows it. *)
Inductive reachable : app -> Prop :=
| reachable_mount storage navigator_language doc :
    reachable (mount storage navigator_language doc)
| reachable_switch languageCode a :
    reachable a -> reachable (switchLanguage languageCode a).


(** What the effect establishes for the language of the current render:
    the stored choice, the document language and the reading direction. *)
Definition effects_hold (a : app) : Prop :=
  localStorage a !! "preferred-language" = Some (currentLanguage a)
  /\ lang (documentElement a) = currentLanguage a
  /\ (dir (documentElement a) = "rtl" <-> currentLanguage a = "ar")
  /\ (currentLanguage a <> "ar" -> dir (documentElement a) = "ltr").

(** The document element before the hook has touched it. *)
Definition fresh_document : document := {| lang := "en"; dir := "" |}.

(** [currentLanguageInfo] *)
Definition currentLanguageInfo (a : app) : value :=
  member SUPPORTED_LANGUAGES (currentLanguage a).

End UseLanguage.

(* ===================================================================== *)
(** ** src/contexts/LanguageContext.js                                     *)
(* ===================================================================== *)

Module LanguageContext.
Import Js.

Section Provider.

Variable inherited : value -> string -> result value.
Variable convert : value -> result string.
(** [import { translations } from '../data/translations'] *)
Variable translations : object.
(** [currentLanguage], as handed out by [useLanguage()] *)
Variable currentLanguage : string.

(** [for (const k of keys) translation = translation?.[k]] *)
Definition descend (root : value) (keys : list string) : result value :=
  List.fold_left
    (fun translation k => bind translation (fun v => get inherited v k))
    keys (Return root).

(** The callback given to [replace], [params[param] || match], together
    with the conversion [replace] applies to what it returns. *)
Definition substitute (params : object) (matched param : string)
  : result string :=
  let v := member params param in
  if truthy v then ToString convert v else Return matched.

(** The translation function handed out by the provider. *)
Definition t (key : string) (params : object) : result value :=
  let keys := split "." key in
  bind (descend (member translations currentLanguage) keys) (fun translation =>
  bind (if negb (truthy translation)
        then descend (member translations "en") keys
        else Return translation) (fun translation =>
  if negb (truthy translation) then Return (VString key)
  else
    match translation with
    | VString s =>
        if has_keys params
        then bind (replace (substitute params) s) (fun text =>
             Return (VString text))
        else Return translation
    | _ => Return translation
    end)).

(** The value of [translation] when the final fallback is tested: the
    candidate result. *)
Definition candidate (key : string) : result value :=
  let keys := split "." key in
  bind (descend (member translations currentLanguage) keys) (fun translation =>
  if negb (truthy translation)
  then descend (member translations "en") keys
  else Return translation).

End Provider.

(** An excerpt of [translations] for running [t] on the repository's own
    data: the entries are copied from the data file, whose Italian catalog
    has no [home.services.apiDesign]. *)
Definition nav_en : value :=
  VObject [("home", VString "Home"); ("about", VString "About");
           ("projects", VString "Projects"); ("blog", VString "Blog");
           ("contact", VString "Contact")].

Definition nav_tr : value :=
  VObject [("home", VString "Ana Sayfa"); ("about", VString "Hakkımda");
           ("projects", VString "Projeler"); ("blog", VString "Blog");
           ("contact", VString "İletişim")].

Definition nav_it : value :=
  VObject [("home", VString "Home"); ("about", VString "Chi Sono");
           ("projects", VString "Progetti"); ("blog", VString "Blog");
           ("contact", VString "Contatti")].

Definition catalog (nav : value) (services : object) (copyright : string)
  : value :=
  VObject [("nav", nav);
           ("home", VObject [("services", VObject services)]);
           ("footer", VObject [("copyright", VString copyright)])].

Definition translations_excerpt : object :=
  [ ("en", catalog nav_en
             [("title", VString "Professional Services");
              ("apiDesign",
               VObject [("title", VString "API Design & Integration")])]
             "© {{year}} Serhat Soysal. All rights reserved.");
    ("tr", catalog nav_tr
             [("title", VString "Profesyonel Hizmetler");
              ("apiDesign",
               VObject [("title", VString "API Tasarımı & Entegrasyon")])]
             "© {{year}} Serhat Soysal. Tüm hakları saklıdır.");
    ("it", catalog nav_it
             [("title", VString "Cosa Faccio")]
             "© {{year}} Serhat Soysal. Tutti i diritti riservati.") ].


(** A host that has nothing more to offer, for running examples that stay
    within the members the model lists. *)
Definition bare : value -> string -> result value :=
  fun _ _ => Return VUndefined.

Definition no_convert : value -> result string := fun _ => Throw.

End LanguageContext.

(* ===================================================================== *)
(** ** Runs of the hook                                                    *)
(* ===================================================================== *)

Module Runs.
Import UseLanguage.

(** A run of calls of [switchLanguage], in the order given. *)
Definition switchLanguages (codes : list string) (a : app) : app :=
  List.fold_left (fun a code => switchLanguage code a) codes a.

(** The names the registry test can be asked about with a truthy answer:
    the four codes of the registry and the twelve names every object
    literal inherits. *)
Definition accepted_names : list string :=
  [ "en"; "tr"; "ar"; "it";
    "__proto__"; "constructor"; "hasOwnProperty"; "isPrototypeOf";
    "propertyIsEnumerable"; "toLocaleString"; "toString"; "valueOf";
    "__defineGetter__"; "__defineSetter__"; "__lookupGetter__";
    "__lookupSetter__" ].

End Runs.

(* ===================================================================== *)
(** ** Further built-ins used by the components                            *)
(* ===================================================================== *)

Module Builtins.
Import Js.

(** [Object.values(o)]: the own values in insertion order. *)
Definition values (o : object) : list value := List.map snd o.

(** [Object.keys(o)] *)
Definition keys (o : object) : list string := List.map fst o.

(** [{...o, [k]: v}]: a copy of [o] in which [k] holds [v]; a name [o]
    already has keeps its place, a new name goes to the end. *)
Fixpoint assign (k : string) (v : value) (o : object) : object :=
  match o with
  | [] => [(k, v)]
  | (k', v') :: rest =>
      if String.eqb k k' then (k', v) :: rest else (k', v') :: assign k v rest
  end.

(** [segs.join(sep)], the inverse of [split]. *)
Fixpoint join (sep : ascii) (segs : list string) : string :=
  match segs with
  | [] => EmptyString
  | [seg] => seg
  | seg :: rest => String.append seg (String sep (join sep rest))
  end.

(** *** [encodeURIComponent] *)

(** The characters left as they are: letters, digits and [- _ . ! ~ * ' ( )]. *)
Definition unreserved (c : ascii) : bool :=
  let n := nat_of_ascii c in
  (((48 <=? n) && (n <=? 57)) || ((65 <=? n) && (n <=? 90))
   || ((97 <=? n) && (n <=? 122))
   || (n =? 45) || (n =? 95) || (n =? 46) || (n =? 33) || (n =? 126)
   || (n =? 42) || (n =? 39) || (n =? 40) || (n =? 41))%nat.

Definition hex_digit (n : nat) : ascii :=
  List.nth n (list_ascii_of_string "0123456789ABCDEF") "0"%char.

(** [%XX] for one byte of the UTF-8 form. *)
Definition percent (c : ascii) : string :=
  let n := nat_of_ascii c in
  String "%" (String (hex_digit (n / 16)) (String (hex_digit (n mod 16)) "")).

(** Every code unit outside the unreserved set is escaped byte by byte.
    The text is well-formed; a lone surrogate, for which the built-in
    throws, has no UTF-8 form. *)
Fixpoint encodeURIComponent (s : string) : string :=
  match s with
  | EmptyString => EmptyString
  | String c rest =>
      if unreserved c then String c (encodeURIComponent rest)
      else String.append (percent c) (encodeURIComponent rest)
  end.

(** Whether all characters of a string pass a test. *)
Fixpoint every (f : ascii -> bool) (s : string) : bool :=
  match s with
  | EmptyString => true
  | String c rest => f c && every f rest
  end.

(** How often a character occurs in a string. *)
Fixpoint occurrences (c : ascii) (s : string) : nat :=
  match s with
  | EmptyString => 0
  | String c' rest =>
      (if Ascii.eqb c' c then 1 else 0) + occurrences c rest
  end.

End Builtins.

(* ===================================================================== *)
(** ** src/components/LanguageSwitcher.js                                  *)
(* ===================================================================== *)

Module LanguageSwitcher.
Import Js Builtins UseLanguage.

(** The dropdown's own state next to what the context hands it. *)
Record switcher : Type := { isOpen : bool; context : app }.

Definition toggleDropdown (s : switcher) : switcher :=
  {| isOpen := negb (isOpen s); context := context s |}.

Definition handleLanguageChange (languageCode : string) (s : switcher)
  : switcher :=
  {| isOpen := false; context := switchLanguage languageCode (context s) |}.

(** [Object.values(supportedLanguages)] *)
Definition languages : list value := values SUPPORTED_LANGUAGES.

(** [language.code] *)
Definition code (language : value) : value :=
  match language with
  | VObject props => member props "code"
  | _ => VUndefined
  end.

(** [currentLanguage === language.code]: the entry shown as selected. *)
Definition selected (s : switcher) (language : value) : bool :=
  match code language with
  | VString c => String.eqb (currentLanguage (context s)) c
  | _ => false
  end.

(** [onClick={() => handleLanguageChange(language.code)}] *)
Definition click (language : value) (s : switcher) : switcher :=
  handleLanguageChange (to_string (code language)) s.

(** What can follow a state [s0] of the menu: clicks on its entries and on
    the button that opens it. *)
Inductive follows (s0 : switcher) : switcher -> Prop :=
| follows_refl : follows s0 s0
| follows_toggle s : follows s0 s -> follows s0 (toggleDropdown s)
| follows_click language s :
    follows s0 s -> In language languages -> follows s0 (click language s).

End LanguageSwitcher.

(* ===================================================================== *)
(** ** src/components/Navigation.js and Footer                             *)
(* ===================================================================== *)

Module Navigation.
Import Js LanguageContext.

Section Items.

Variable inherited : value -> string -> result value.
Variable convert : value -> result string.
Variable translations : object.
Variable currentLanguage : string.

Local Abbreviation t := (t inherited convert translations currentLanguage).

(** [navItems]: path and label. *)
Definition navItems : list (string * result value) :=
  [ ("/", t "nav.home" []);
    ("/about", t "nav.about" []);
    ("/projects", t "nav.projects" []);
    ("/blog", t "nav.blog" []);
    ("/contact", t "nav.contact" []) ].

(** [isActive]: [location.pathname === path] *)
Definition isActive (pathname path : string) : bool := String.eqb pathname path.

(** The footer line [t('footer.copyright', { year: currentYear })]. *)
Definition copyright (currentYear : Z) : result value :=
  t "footer.copyright" [("year", VNumber currentYear)].

End Items.

End Navigation.

(* ===================================================================== *)
(** ** src/pages/Contact.js                                                *)
(* ===================================================================== *)

Module Contact.
Import Js Builtins.

Definition newline : string := String "010"%char EmptyString.

(** The initial [formData]. *)
Definition emptyForm : object :=
  [("name", VString ""); ("email", VString ""); ("subject", VString "");
   ("message", VString "")].

(** [handleChange], on the input's [name] and [value]. *)
Definition handleChange (name value : string) (formData : object) : object :=
  assign name (VString value) formData.

(** A run of edits, each the [name] and [value] of one change event. *)
Definition edits (es : list (string * string)) (formData : object) : object :=
  List.fold_left (fun f e => handleChange (fst e) (snd e) f) es formData.

(** The characters a link is made of: what [encodeURIComponent] emits and
    the punctuation of the fixed parts. *)
Definition link_char (c : ascii) : bool :=
  unreserved c || Ascii.eqb c "%" || Ascii.eqb c ":" || Ascii.eqb c "@"
  || Ascii.eqb c "?" || Ascii.eqb c "=" || Ascii.eqb c "&".

(** The body text of the mail, before encoding. *)
Definition body (formData : object) : string :=
  let name := member formData "name" in
  let email := member formData "email" in
  let message := member formData "message" in
  String.append "Name: "
    (String.append (to_string name)
      (String.append newline
        (String.append "Email: "
          (String.append (to_string email)
            (String.append newline
              (String.append newline
                (String.append "Message:"
                  (String.append newline (to_string message))))))))).

(** [handleSubmit]: the link assigned to [window.location.href]. *)
Definition handleSubmit (formData : object) : string :=
  let subject := member formData "subject" in
  String.append "mailto:serhat@serhatsoysal.com?subject="
    (String.append (encodeURIComponent (to_string subject))
      (String.append "&body=" (encodeURIComponent (body formData)))).

End Contact.

(* ===================================================================== *)
(** ** src/pages/BlogPost.js                                               *)
(* ===================================================================== *)

Module BlogPost.
Import Js.

(** How loading the markdown of a post ends: the dynamic import fails, the
    fetch (or reading its body) fails, or the text arrives. *)
Inductive outcome : Type :=
| ImportFails
| FetchFails
| Text (text : string).

Record page : Type :=
  { post : option object; content : string; loading : bool }.

(** [useState(null)], [useState('')], [useState(true)] *)
Definition initial : page :=
  {| post := None; content := ""; loading := true |}.

Definition notFoundContent : string :=
  String.append "# Blog post content not found"
    (String.append Contact.newline
      (String.append Contact.newline "This blog post is coming soon!")).

Section Posts.

(** [import { blogPosts } from '../data/blogPosts'] *)
Variable blogPosts : list object.

(** [p.slug === slug] *)
Definition has_slug (slug : string) (p : object) : bool :=
  match member p "slug" with
  | VString s => String.eqb s slug
  | _ => false
  end.

(** The part of the effect that runs at once: look the post up, show it if
    found, stop loading if not. *)
Definition lookup (slug : string) (pg : page) : page :=
  match List.find (has_slug slug) blogPosts with
  | Some foundPost =>
      {| post := Some foundPost; content := content pg; loading := loading pg |}
  | None =>
      {| post := post pg; content := content pg; loading := false |}
  end.

(** The part that runs when loading ends, for a post that was found. *)
Definition settle (o : outcome) (pg : page) : page :=
  {| post := post pg;
     content := match o with
                | Text text => text
                | ImportFails | FetchFails => notFoundContent
                end;
     loading := false |}.

(** The effect for [slug] with its load run to the end, for a page on which
    no other load is in flight, as on a page just opened.  The general case
    is [run] below. *)
Definition effect (slug : string) (o : outcome) (pg : page) : page :=
  match List.find (has_slug slug) blogPosts with
  | Some _ => settle o (lookup slug pg)
  | None => lookup slug pg
  end.

(** What happens to a page that stays mounted: the slug changes, or a load
    that was started ends.  The effect has no cleanup, so a load ends when
    it ends, also after the slug has changed again. *)
Inductive event : Type :=
| SlugChanges (slug : string)
| LoadEnds (o : outcome).

Definition step (pg : page) (e : event) : page :=
  match e with
  | SlugChanges slug => lookup slug pg
  | LoadEnds o => settle o pg
  end.

Definition run (events : list event) (pg : page) : page :=
  List.fold_left step events pg.

(** The post a change of slug puts on show, if it finds one. *)
Definition found (e : event) : option object :=
  match e with
  | SlugChanges slug => List.find (has_slug slug) blogPosts
  | LoadEnds _ => None
  end.

(** The events that switch [loading] off: a load that ends, and a change to
    a slug no post has.  Nothing switches it on again. *)
Definition stops (e : event) : bool :=
  match e with
  | SlugChanges slug =>
      match List.find (has_slug slug) blogPosts with
      | Some _ => false
      | None => true
      end
  | LoadEnds _ => true
  end.

End Posts.

(** The content a load leaves when it ends. *)
Definition arrived (e : event) : option string :=
  match e with
  | LoadEnds (Text text) => Some text
  | LoadEnds _ => Some notFoundContent
  | SlugChanges _ => None
  end.

(** The last of the events, if any, for which [f] has an answer. *)
Fixpoint last_answer {A : Type} (f : event -> option A) (events : list event)
  : option A :=
  match events with
  | [] => None
  | e :: rest =>
      match last_answer f rest with
      | Some a => Some a
      | None => f e
      end
  end.

(** What the component renders. *)
Inductive view : Type :=
| Spinner
| PostNotFound
| Article (p : object) (markdown : string).

Definition render (pg : page) : view :=
  if loading pg then Spinner
  else match post pg with
       | None => PostNotFound
       | Some p => Article p (content pg)
       end.

End BlogPost.

(* ===================================================================== *)
(** ** Facts about the value layer                                         *)
(* ===================================================================== *)

Module JsFacts.
Import Js.

Lemma nullish_not_truthy v : nullish v = true -> truthy v = false.
Proof. destruct v; simpl; congruence. Qed.









(** A member found on [Object.prototype] is a built-in object, hence
    truthy. *)
Lemma Object_prototype_truthy k :
  Object_prototype k = VUndefined \/ truthy (Object_prototype k) = true.
Proof.
  unfold Object_prototype. destruct (String.eqb k "__proto__"); [now right | ].
  destruct (lookup_name k Object_prototype_functions); [now right | now left].
Qed.

Lemma split_nonempty sep s : split sep s <> [].
Proof.
  destruct s as [ | c rest]; simpl; [discriminate | ].
  destruct (Ascii.eqb c sep); [discriminate | ].
  destruct (split sep rest); discriminate.
Qed.

(** *** The global replace, one step at a time *)

Lemma append_nil b : String.append "" b = b.
Proof. reflexivity. Qed.

Lemma append_cons c a b :
  String.append (String c a) b = String c (String.append a b).
Proof. reflexivity. Qed.

Lemma length_append a b :
  String.length (String.append a b) = String.length a + String.length b.
Proof.
  induction a as [ | c a IH]; [reflexivity | ].
  rewrite append_cons. cbn [String.length]. now rewrite IH.
Qed.

Lemma append_assoc a b c :
  String.append (String.append a b) c = String.append a (String.append b c).
Proof.
  induction a as [ | x a IH]; [reflexivity | ].
  rewrite !append_cons. now rewrite IH.
Qed.

Lemma span_word_append s w r : span_word s = (w, r) -> s = String.append w r.
Proof.
  revert w r. induction s as [ | c s IH]; cbn [span_word]; intros w r H.
  - now inversion H.
  - destruct (is_word c).
    + destruct (span_word s) as [w' r'] eqn:E. inversion H; subst.
      rewrite append_cons. f_equal. now apply IH.
    + now inversion H.
Qed.

(** Passing over the rest of a match. *)
Lemma replace_from_skip f a r :
  replace_from f (String.length a) (String.append a r) = replace_from f 0 r.
Proof.
  induction a as [ | c a IH]; [reflexivity | ].
  rewrite append_cons. cbn [String.length replace_from]. exact IH.
Qed.

(** A match at the front is the text [{{p}}] for its captured name [p]. *)
Lemma match_here_token s p :
  match_here s = Some p -> exists rest, s = String.append (token p) rest.
Proof.
  unfold match_here.
  destruct s as [ | c1 s]; [discriminate | ].
  destruct c1 as [[] [] [] [] [] [] [] []]; try discriminate.
  destruct s as [ | c2 body]; [discriminate | ].
  destruct c2 as [[] [] [] [] [] [] [] []]; try discriminate.
  destruct (span_word body) as [w r] eqn:E.
  apply span_word_append in E. subst body.
  destruct w as [ | c w]; [discriminate | ].
  destruct r as [ | d1 r]; [discriminate | ].
  destruct d1 as [[] [] [] [] [] [] [] []]; try discriminate.
  destruct r as [ | d2 rest]; [discriminate | ].
  destruct d2 as [[] [] [] [] [] [] [] []]; try discriminate.
  intros H. inversion H; subst. exists rest.
  unfold token.
  rewrite !append_cons, !append_nil, !append_cons, append_assoc. reflexivity.
Qed.

(** At a match the callback's text is emitted and the scan resumes behind
    the match. *)
Lemma replace_match f p rest :
  match_here (String.append (token p) rest) = Some p ->
  replace f (String.append (token p) rest)
  = bind (f (token p) p) (fun x =>
    bind (replace f rest) (fun r => Return (String.append x r))).
Proof.
  intros H. unfold replace.
  change (String.append (token p) rest)
    with (String "{" (String.append (String "{" (String.append p "}}")) rest))
    in *.
  cbn [replace_from]. rewrite H.
  replace (String.length p + 3)
    with (String.length (String "{" (String.append p "}}"))).
  - now rewrite replace_from_skip.
  - cbn [String.length]. rewrite length_append. cbn [String.length]. lia.
Qed.

(** Elsewhere one code unit is copied. *)
Lemma replace_copy f c rest :
  match_here (String c rest) = None ->
  replace f (String c rest)
  = bind (replace f rest) (fun r => Return (String c r)).
Proof. intros H. unfold replace. cbn [replace_from]. now rewrite H. Qed.

(** A callback that answers every match with the match itself leaves the
    string as it was. *)
Lemma replace_unchanged f s :
  (forall p, f (token p) p = Return (token p)) -> replace f s = Return s.
Proof.
  intros Hf.
  assert (G : forall n s, String.length s <= n -> replace f s = Return s).
  { clear s. induction n as [ | n IH]; intros s L.
    - destruct s; [reflexivity | simpl in L; lia].
    - destruct s as [ | c rest]; [reflexivity | ].
      destruct (match_here (String c rest)) as [p | ] eqn:M.
      + destruct (match_here_token _ _ M) as [rest' E].
        rewrite E in *. rewrite (replace_match f p rest' M), Hf.
        cbn [bind]. rewrite IH; [reflexivity | ].
        rewrite length_append in L. unfold token in L.
        rewrite !append_cons in L. cbn [String.length] in L. lia.
      + rewrite (replace_copy f c rest M). rewrite IH; [reflexivity | ].
        simpl in L. lia. }
  now apply (G (String.length s)).
Qed.

(** *** Conversion to a string *)

Lemma ToString_printable convert v :
  printable v = true -> ToString convert v = Return (to_string v).
Proof. intros P. unfold ToString. now rewrite P. Qed.

(** *** The own properties of a string *)








End JsFacts.


(* ===================================================================== *)
(** ** The locale state manager                                            *)
(* ===================================================================== *)

Module UseLanguageFacts.
Import Js JsFacts UseLanguage.

Lemma registered_cases c :
  registered c = true <-> c = "en" \/ c = "tr" \/ c = "ar" \/ c = "it".
Proof.
  unfold registered, SUPPORTED_LANGUAGES. cbn [own]. split.
  - intros H.
    destruct (String.eqb_spec c "en"); [tauto | ].
    destruct (String.eqb_spec c "tr"); [tauto | ].
    destruct (String.eqb_spec c "ar"); [tauto | ].
    destruct (String.eqb_spec c "it"); [tauto | discriminate].
  - intros [-> | [-> | [-> | ->]]]; reflexivity.
Qed.

Lemma registered_supported c : registered c = true -> supported c = true.
Proof.
  rewrite registered_cases. intros [-> | [-> | [-> | ->]]]; reflexivity.
Qed.

Lemma registered_nonempty c : registered c = true -> truthy (VString c) = true.
Proof.
  rewrite registered_cases. intros [-> | [-> | [-> | ->]]]; reflexivity.
Qed.

(** The guard of the hook lets through the registered codes and the names
    every object literal inherits. *)
Lemma supported_spec c :
  supported c = true <->
  registered c = true \/ truthy (Object_prototype c) = true.
Proof.
  unfold supported, registered, member.
  destruct (own c SUPPORTED_LANGUAGES) as [v | ] eqn:E.
  - split; [now left | intros _].
    assert (R : registered c = true) by (unfold registered; now rewrite E).
    apply registered_supported in R. unfold supported, member in R.
    now rewrite E in R.
  - split; [now right | intros [H | H]; [discriminate | exact H]].
Qed.

Lemma setCurrentLanguage_same a :
  setCurrentLanguage (currentLanguage a) a = a.
Proof. now destruct a. Qed.

Lemma switchLanguage_current c a :
  supported c = true -> currentLanguage (switchLanguage c a) = c.
Proof.
  intros H. unfold switchLanguage, switchLanguage_call, after_render.
  rewrite H. cbn [setCurrentLanguage currentLanguage].
  now destruct (String.eqb c (currentLanguage a)).
Qed.

(** A registered code becomes the active one. *)
Lemma switchLanguage_registered c a :
  registered c = true -> currentLanguage (switchLanguage c a) = c.
Proof. intros H. now apply switchLanguage_current, registered_supported. Qed.

(** A code the guard rejects changes nothing at all. *)
Lemma switchLanguage_rejected c a :
  supported c = false -> switchLanguage c a = a.
Proof.
  intros H. unfold switchLanguage, switchLanguage_call, after_render.
  rewrite H. now rewrite String.eqb_refl.
Qed.

(** An unregistered code that names no member of [Object.prototype] is
    rejected. *)
Lemma switchLanguage_unregistered c a :
  registered c = false -> Object_prototype c = VUndefined ->
  switchLanguage c a = a.
Proof.
  intros R P. apply switchLanguage_rejected.
  destruct (supported c) eqn:S; [ | reflexivity].
  apply supported_spec in S. destruct S as [S | S]; [congruence | ].
  rewrite P in S. discriminate.
Qed.

(** C4 (evaluated at the failing input): ["constructor"] is not a key of
    the registry, yet [switchLanguage "constructor"] makes it the active
    code, because [SUPPORTED_LANGUAGES["constructor"]] is the inherited
    [Object] function and so passes the guard. *)
Theorem switchLanguage_constructor a :
  registered "constructor" = false
  /\ currentLanguage (switchLanguage "constructor" a) = "constructor".
Proof. split; [reflexivity | now apply switchLanguage_current]. Qed.

Lemma initialLanguage_saved storage nav c :
  storage !! STORAGE_KEY = Some c -> registered c = true ->
  initialLanguage storage nav = c.
Proof.
  intros S R. unfold initialLanguage. rewrite S.
  now rewrite (registered_nonempty c R), (registered_supported c R).
Qed.

Lemma initialLanguage_browser storage nav :
  storage !! STORAGE_KEY = None ->
  initialLanguage storage nav =
    if supported (primary_subtag nav) then primary_subtag nav else "en".
Proof. intros S. unfold initialLanguage. now rewrite S. Qed.

(** A stored code the guard rejects is ignored in favour of the browser's
    language. *)
Lemma initialLanguage_saved_rejected storage nav c :
  storage !! STORAGE_KEY = Some c -> supported c = false ->
  initialLanguage storage nav =
    if supported (primary_subtag nav) then primary_subtag nav else "en".
Proof.
  intros S R. unfold initialLanguage. rewrite S, R.
  now rewrite andb_false_r.
Qed.

Example initial_tr : initialLanguage ∅ "tr-TR" = "tr".
Proof. reflexivity. Qed.

Example initial_de : initialLanguage ∅ "de-DE" = "en".
Proof. reflexivity. Qed.

(** C5 (evaluated at the failing input): with ["constructor"] in storage and
    a Turkish browser the start-up choice is ["constructor"], which is not
    registered; the precedence of the claim gives ["tr"]. *)
Theorem initialLanguage_constructor :
  registered "constructor" = false
  /\ initialLanguage (<[STORAGE_KEY := "constructor"]> ∅) "tr-TR"
     = "constructor".
Proof.
  split; [reflexivity | ].
  unfold initialLanguage. now rewrite lookup_insert_eq.
Qed.

Lemma persist_effects a : effects_hold (persist a).
Proof.
  unfold effects_hold, persist. cbn [localStorage currentLanguage documentElement lang dir].
  split; [apply lookup_insert_eq | ]. split; [reflexivity | ].
  destruct (String.eqb_spec (currentLanguage a) "ar") as [E | E].
  - split; [tauto | contradiction].
  - split; [split; [discriminate | contradiction] | reflexivity].
Qed.

Lemma persist_current a : currentLanguage (persist a) = currentLanguage a.
Proof. reflexivity. Qed.

(** The effect has run in every state the hook is left in. *)
Lemma reachable_effects a : reachable a -> effects_hold a.
Proof.
  induction 1 as [storage nav doc | code a R IH].
  - apply persist_effects.
  - unfold switchLanguage, switchLanguage_call, after_render.
    destruct (supported code).
    + cbn [setCurrentLanguage currentLanguage].
      destruct (String.eqb_spec code (currentLanguage a)) as [-> | N].
      * now rewrite setCurrentLanguage_same.
      * apply persist_effects.
    + now rewrite String.eqb_refl.
Qed.




Example switch_to_arabic_is_rtl :
  dir (documentElement (switchLanguage "ar" (mount ∅ "en-US" fresh_document)))
  = "rtl".
Proof. reflexivity. Qed.

Example switch_to_italian_is_ltr :
  dir (documentElement (switchLanguage "it" (mount ∅ "ar-SA" fresh_document)))
  = "ltr".
Proof. reflexivity. Qed.

Lemma initialLanguage_supported storage nav :
  supported (initialLanguage storage nav) = true.
Proof.
  unfold initialLanguage.
  assert (F : supported (if supported (primary_subtag nav)
                         then primary_subtag nav else DEFAULT_LANGUAGE) = true).
  { destruct (supported (primary_subtag nav)) eqn:E; [exact E | reflexivity]. }
  destruct (storage !! STORAGE_KEY) as [saved | ]; [ | exact F].
  destruct (truthy (VString saved)); cbn [andb]; [ | exact F].
  destruct (supported saved) eqn:E; [exact E | exact F].
Qed.

(** What the guard does maintain: the active code always passes the guard
    itself. *)
Lemma reachable_supported a :
  reachable a -> supported (currentLanguage a) = true.
Proof.
  induction 1 as [storage nav doc | code a R IH].
  - apply initialLanguage_supported.
  - destruct (supported code) eqn:E.
    + now rewrite switchLanguage_current.
    + now rewrite switchLanguage_rejected.
Qed.

(** C9 (evaluated at the failing input): after a first render and one call
    [switchLanguage "constructor"] the active code is ["constructor"], which
    is not a key of the registry. *)
Theorem reachable_unregistered :
  let a := switchLanguage "constructor" (mount ∅ "en-US" fresh_document) in
  reachable a /\ currentLanguage a = "constructor"
  /\ registered (currentLanguage a) = false.
Proof.
  cbv zeta. split; [apply reachable_switch, reachable_mount | ].
  split; reflexivity.
Qed.

(** C10: once the effect has stored a registered code [c], a fresh start
    reads it back: the initialiser yields [c] whatever the browser reports,
    and so does the first render. *)
Theorem persist_then_initialise c a nav doc :
  registered c = true -> currentLanguage a = c ->
  initialLanguage (localStorage (persist a)) nav = c
  /\ currentLanguage (mount (localStorage (persist a)) nav doc) = c.
Proof.
  intros R E.
  assert (I : initialLanguage (localStorage (persist a)) nav = c).
  { apply initialLanguage_saved; [ | exact R].
    unfold persist. cbn [localStorage]. rewrite E. apply lookup_insert_eq. }
  split; [exact I | exact I].
Qed.

Lemma persist_then_initialise_witness :
  initialLanguage
    (localStorage (persist (switchLanguage "tr" (mount ∅ "en-US" fresh_document))))
    "de-DE" = "tr"
  /\ currentLanguage
       (mount (localStorage
                 (persist (switchLanguage "tr" (mount ∅ "en-US" fresh_document))))
              "de-DE" fresh_document) = "tr".
Proof.
  apply (persist_then_initialise "tr"); reflexivity.
Defined.

End UseLanguageFacts.

(* ===================================================================== *)
(** ** The translation resolver                                            *)
(* ===================================================================== *)

Module LanguageContextFacts.
Import Js JsFacts LanguageContext.

Lemma bind_assoc {A B C : Type} (r : result A) (f : A -> result B)
      (g : B -> result C) :
  bind (bind r f) g = bind r (fun a => bind (f a) g).
Proof. now destruct r. Qed.

Section Resolver.

Variable inherited : value -> string -> result value.
Variable convert : value -> result string.
Variable translations : object.
Variable currentLanguage : string.

Local Abbreviation descend := (descend inherited).
Local Abbreviation candidate := (candidate inherited translations currentLanguage).
Local Abbreviation t := (t inherited convert translations currentLanguage).
Local Abbreviation active := (member translations currentLanguage).
Local Abbreviation english := (member translations "en").
Local Abbreviation step :=
  (fun (translation : result value) (k : string) =>
     bind translation (fun v => get inherited v k)).






Lemma t_candidate key params :
  t key params =
    bind (candidate key) (fun translation =>
      if negb (truthy translation) then Return (VString key)
      else match translation with
           | VString s =>
               if has_keys params
               then bind (replace (substitute convert params) s) (fun text =>
                    Return (VString text))
               else Return translation
           | _ => Return translation
           end).
Proof.
  unfold LanguageContext.t, LanguageContext.candidate.
  now rewrite bind_assoc.
Qed.

(** No interpolation without parameters. *)
Lemma t_no_params key :
  t key [] =
    bind (candidate key) (fun translation =>
      Return (if truthy translation then translation else VString key)).
Proof.
  rewrite t_candidate. destruct (candidate key) as [c | ]; [ | reflexivity].
  cbn [bind]. destruct (truthy c); cbn [negb]; [ | reflexivity].
  now destruct c.
Qed.

Lemma candidate_found key v :
  LanguageContext.descend inherited active (split "." key) = Return v ->
  truthy v = true -> candidate key = Return v.
Proof.
  intros D T. unfold LanguageContext.candidate. rewrite D. cbn [bind].
  now rewrite T.
Qed.

Lemma candidate_fallback key v :
  LanguageContext.descend inherited active (split "." key) = Return v ->
  truthy v = false ->
  candidate key = LanguageContext.descend inherited english (split "." key).
Proof.
  intros D T. unfold LanguageContext.candidate. rewrite D. cbn [bind].
  now rewrite T.
Qed.

(** C1, amended: when the traversal of the active catalog yields a value
    that fails the test [!translation] passes on (absent, or present but
    falsy), the same traversal of the English catalog decides: its value is
    the result of [t key] when it is truthy, and [key] itself is the result
    when it is falsy, absent included. *)
Theorem t_fallback_order key a e :
  let keys := split "." key in
  descend active keys = Return a -> truthy a = false ->
  descend english keys = Return e ->
  t key [] = Return (if truthy e then e else VString key).
Proof.
  intros keys A F E. rewrite t_no_params.
  rewrite (candidate_fallback key a A F). fold keys. now rewrite E.
Qed.





(** C7, amended: a key that resolves to a truthy value other than a
    string, in the active catalog or through the English fallback, yields
    that very value, whatever the parameters are; a nested mapping is such
    a value. *)
Theorem t_non_string_unmodified key params v :
  let keys := split "." key in
  descend active keys = Return v
  \/ (exists a, descend active keys = Return a /\ truthy a = false
                /\ descend english keys = Return v) ->
  truthy v = true -> is_string v = false ->
  t key params = Return v.
Proof.
  intros keys R T S.
  assert (C : candidate key = Return v).
  { destruct R as [D | [a [D [F E]]]].
    - now apply candidate_found.
    - rewrite (candidate_fallback key a D F). exact E. }
  rewrite t_candidate, C. cbn [bind]. rewrite T. cbn [negb].
  destruct v; try reflexivity. discriminate.
Qed.

End Resolver.

(** *** Interpolation *)

(** Placeholders are answered with themselves when no name has a truthy
    value among the parameters. *)
Lemma interpolation_without_values convert params s :
  (forall p, truthy (member params p) = false) ->
  replace (substitute convert params) s = Return s.
Proof.
  intros H. apply replace_unchanged. intros p. unfold substitute.
  now rewrite H.
Qed.

(** A placeholder whose name has a truthy value is replaced by the text of
    that value. *)
Lemma interpolation_of_value convert params p rest :
  match_here (String.append (token p) rest) = Some p ->
  truthy (member params p) = true ->
  replace (substitute convert params) (String.append (token p) rest)
  = bind (ToString convert (member params p)) (fun x =>
    bind (replace (substitute convert params) rest) (fun r =>
    Return (String.append x r))).
Proof.
  intros M T. rewrite (replace_match _ p rest M). unfold substitute.
  now rewrite T.
Qed.

(** *** The resolver on the repository's catalogs *)

Example nav_home_tr inherited convert :
  t inherited convert translations_excerpt "tr" "nav.home" []
  = Return (VString "Ana Sayfa").
Proof. reflexivity. Qed.

Example missing_key inherited convert :
  t inherited convert translations_excerpt "tr" "does.not.exist" []
  = Return (VString "does.not.exist").
Proof. reflexivity. Qed.

Example copyright_year inherited convert :
  t inherited convert translations_excerpt "en" "footer.copyright"
    [("year", VString "2024")]
  = Return (VString "© 2024 Serhat Soysal. All rights reserved.").
Proof. reflexivity. Qed.

Example copyright_without_params inherited convert :
  t inherited convert translations_excerpt "en" "footer.copyright" []
  = Return (VString "© {{year}} Serhat Soysal. All rights reserved.").
Proof. reflexivity. Qed.

Example copyright_other_name inherited convert :
  t inherited convert translations_excerpt "en" "footer.copyright"
    [("month", VString "May")]
  = Return (VString "© {{year}} Serhat Soysal. All rights reserved.").
Proof. reflexivity. Qed.

(** The path may run on below a leaf: a string has own properties too,
    counted in code units. *)
Example below_a_leaf inherited convert :
  t inherited convert translations_excerpt "tr" "nav.home.length" []
  = Return (VNumber 9)
  /\ t inherited convert translations_excerpt "tr" "nav.home.0" []
     = Return (VString "A")
  /\ t inherited convert translations_excerpt "tr" "nav.about.length" []
     = Return (VNumber 8)
  /\ t inherited convert translations_excerpt "tr" "nav.contact.0" []
     = Return (VString "İ").
Proof. repeat split; reflexivity. Qed.

(** Where [t] throws: a path that reads [caller] of a built-in function,
    and a parameter object whose own [toString] is not a function. *)
Example t_throws inherited convert :
  t inherited convert translations_excerpt "tr" "constructor.caller" []
  = Throw
  /\ t inherited convert translations_excerpt "en" "footer.copyright"
       [("year", VObject [("toString", VString "x")])]
     = Throw.
Proof. split; reflexivity. Qed.

(** C1 (counterexample): the Italian catalog has no
    [home.services.apiDesign], so the traversal there yields absent; in the
    English catalog the same traversal ends at the [length] of the inherited
    [toString] function, the number 0, which is a value and not absent; yet
    [t] returns the key, not that value. *)
Lemma fallback_skips_falsy_english :
  descend bare (member translations_excerpt "it")
    (split "." "home.services.apiDesign.toString.length")
  = Return VUndefined
  /\ descend bare (member translations_excerpt "en")
       (split "." "home.services.apiDesign.toString.length")
     = Return (VNumber 0)
  /\ t bare no_convert translations_excerpt "it"
       "home.services.apiDesign.toString.length" []
     = Return (VString "home.services.apiDesign.toString.length").
Proof. repeat split; reflexivity. Qed.

Lemma t_fallback_order_witness :
  t bare no_convert translations_excerpt "it" "home.services.apiDesign.title" []
  = Return (VString "API Design & Integration")
  /\ t bare no_convert translations_excerpt "it"
       "home.services.apiDesign.price" []
     = Return (VString "home.services.apiDesign.price").
Proof.
  split.
  - apply (t_fallback_order bare no_convert translations_excerpt "it"
             "home.services.apiDesign.title" VUndefined
             (VString "API Design & Integration")); reflexivity.
  - apply (t_fallback_order bare no_convert translations_excerpt "it"
             "home.services.apiDesign.price" VUndefined VUndefined);
      reflexivity.
Defined.



(** C3 (evaluated at the failing input): the parameter [year] is a key of
    [params], but its value [0] (or the empty string) is falsy, so the
    callback [params[param] || match] answers with the placeholder and
    [{{year}}] stays in the output. *)
Theorem interpolation_keeps_falsy_parameter inherited convert :
  own "year" [("year", VNumber 0)] = Some (VNumber 0)
  /\ t inherited convert translations_excerpt "en" "footer.copyright"
       [("year", VNumber 0)]
     = Return (VString "© {{year}} Serhat Soysal. All rights reserved.")
  /\ t inherited convert translations_excerpt "en" "footer.copyright"
       [("year", VString "")]
     = Return (VString "© {{year}} Serhat Soysal. All rights reserved.").
Proof. repeat split; reflexivity. Qed.



(** C7 (counterexample): [nav.toString.length] resolves to the number 0,
    the [length] of the inherited [toString] function: a value that is not
    a string.  [t] does not return it; it returns the key. *)
Lemma falsy_non_string_not_returned :
  descend bare (member translations_excerpt "tr")
    (split "." "nav.toString.length")
  = Return (VNumber 0)
  /\ is_string (VNumber 0) = false
  /\ t bare no_convert translations_excerpt "tr" "nav.toString.length"
       [("year", VNumber 2024)]
     = Return (VString "nav.toString.length").
Proof. repeat split; reflexivity. Qed.

Lemma t_non_string_unmodified_witness :
  t bare no_convert translations_excerpt "tr" "nav" [("year", VNumber 2024)]
  = Return nav_tr.
Proof.
  apply (t_non_string_unmodified bare no_convert translations_excerpt "tr"
           "nav");
    [left | | ]; reflexivity.
Defined.

End LanguageContextFacts.


(* ===================================================================== *)
(** ** Splitting, copying with one field changed, URI encoding             *)
(* ===================================================================== *)

Module BuiltinsFacts.
Import Js JsFacts Builtins.

Lemma join_cons sep c seg segs :
  join sep (String c seg :: segs) = String c (join sep (seg :: segs)).
Proof. destruct segs; reflexivity. Qed.

Lemma join_split sep s : join sep (split sep s) = s.
Proof.
  induction s as [ | c rest IH]; [reflexivity | ].
  cbn [split]. destruct (Ascii.eqb_spec c sep) as [-> | N].
  - destruct (split sep rest) as [ | seg segs] eqn:E.
    + now apply split_nonempty in E.
    + change (join sep (EmptyString :: seg :: segs))
        with (String.append "" (String sep (join sep (seg :: segs)))).
      rewrite append_nil. now rewrite IH.
  - destruct (split sep rest) as [ | seg segs] eqn:E.
    + now apply split_nonempty in E.
    + rewrite join_cons. now rewrite IH.
Qed.

Lemma split_segments sep s seg :
  In seg (split sep s) -> occurrences sep seg = 0.
Proof.
  revert seg. induction s as [ | c rest IH]; intros seg H.
  - destruct H as [<- | []]. reflexivity.
  - cbn [split] in H. destruct (Ascii.eqb_spec c sep) as [-> | N].
    + destruct H as [<- | H]; [reflexivity | now apply IH].
    + destruct (split sep rest) as [ | seg' segs] eqn:E.
      * now apply split_nonempty in E.
      * destruct H as [<- | H].
        -- cbn [occurrences].
           destruct (Ascii.eqb_spec c sep); [contradiction | ].
           apply IH. now left.
        -- apply IH. now right.
Qed.

(** X1: [split] loses nothing and leaves no separator behind: joining the
    segments with the separator gives the string back, and no segment
    contains the separator. *)
Theorem split_join_round_trip sep s :
  join sep (split sep s) = s
  /\ Forall (fun seg => occurrences sep seg = 0) (split sep s).
Proof.
  split; [apply join_split | ].
  apply List.Forall_forall. intros seg. apply split_segments.
Qed.

Lemma occurrences_append c a b :
  occurrences c (String.append a b) = occurrences c a + occurrences c b.
Proof.
  induction a as [ | x a IH]; [reflexivity | ].
  rewrite append_cons. cbn [occurrences]. rewrite IH. lia.
Qed.

(** *** [assign] *)

Lemma own_assign_same k v o : own k (assign k v o) = Some v.
Proof.
  induction o as [ | [k' v'] rest IH]; cbn [assign own].
  - now rewrite String.eqb_refl.
  - destruct (String.eqb k k') eqn:E; cbn [own]; now rewrite E.
Qed.

Lemma own_assign_other k k' v o :
  k' <> k -> own k' (assign k v o) = own k' o.
Proof.
  intros N. induction o as [ | [k0 v0] rest IH]; cbn [assign own].
  - destruct (String.eqb_spec k' k); [contradiction | reflexivity].
  - destruct (String.eqb_spec k k0) as [-> | N0]; cbn [own].
    + destruct (String.eqb_spec k' k0); [contradiction | reflexivity].
    + now rewrite IH.
Qed.

Lemma member_assign_same k v o : member (assign k v o) k = v.
Proof. unfold member. now rewrite own_assign_same. Qed.

Lemma member_assign_other k k' v o :
  k' <> k -> member (assign k v o) k' = member o k'.
Proof. intros N. unfold member. now rewrite own_assign_other. Qed.

Lemma keys_assign k v o :
  own k o <> None -> keys (assign k v o) = keys o.
Proof.
  induction o as [ | [k' v'] rest IH]; cbn [assign own]; [congruence | ].
  destruct (String.eqb k k'); [reflexivity | ].
  intros H. unfold keys in *. cbn [map fst]. f_equal. now apply IH.
Qed.

(** *** [encodeURIComponent] *)

Lemma hex_digit_unreserved n : unreserved (hex_digit n) = true.
Proof. do 17 (destruct n as [ | n]; [reflexivity | ]). reflexivity. Qed.

Lemma hex_digit_inj a b :
  a < 16 -> b < 16 -> hex_digit a = hex_digit b -> a = b.
Proof.
  intros A B.
  do 16 (destruct a as [ | a]; [
    do 16 (destruct b as [ | b]; [first [reflexivity | discriminate] | ]); lia
  | ]). lia.
Qed.

Lemma encode_cons_unreserved c rest :
  unreserved c = true ->
  encodeURIComponent (String c rest) = String c (encodeURIComponent rest).
Proof. intros H. cbn [encodeURIComponent]. now rewrite H. Qed.

Lemma encode_cons_escaped c rest :
  unreserved c = false ->
  encodeURIComponent (String c rest)
  = String "%" (String (hex_digit (nat_of_ascii c / 16))
       (String (hex_digit (nat_of_ascii c mod 16)) (encodeURIComponent rest))).
Proof. intros H. cbn [encodeURIComponent]. now rewrite H. Qed.

(** A character that is neither unreserved nor the percent sign does not
    occur in encoded text. *)
Lemma encode_occurrences c s :
  unreserved c = false -> c <> "%"%char ->
  occurrences c (encodeURIComponent s) = 0.
Proof.
  intros U P. induction s as [ | x rest IH]; [reflexivity | ].
  destruct (unreserved x) eqn:E.
  - rewrite (encode_cons_unreserved _ _ E). cbn [occurrences]. rewrite IH.
    destruct (Ascii.eqb_spec x c); [congruence | reflexivity].
  - rewrite (encode_cons_escaped _ _ E). cbn [occurrences]. rewrite IH.
    destruct (Ascii.eqb_spec "%" c); [congruence | ].
    destruct (Ascii.eqb_spec (hex_digit (nat_of_ascii x / 16)) c) as [H | _].
    { rewrite <- H, hex_digit_unreserved in U. discriminate. }
    destruct (Ascii.eqb_spec (hex_digit (nat_of_ascii x mod 16)) c) as [H | _].
    { rewrite <- H, hex_digit_unreserved in U. discriminate. }
    reflexivity.
Qed.

Lemma nat_of_ascii_bound c : nat_of_ascii c < 256.
Proof. apply nat_ascii_bounded. Qed.

Lemma encode_injective s1 s2 :
  encodeURIComponent s1 = encodeURIComponent s2 -> s1 = s2.
Proof.
  revert s2. induction s1 as [ | c1 r1 IH]; intros [ | c2 r2] H.
  - reflexivity.
  - destruct (unreserved c2) eqn:E;
      [rewrite (encode_cons_unreserved _ _ E) in H
      | rewrite (encode_cons_escaped _ _ E) in H]; discriminate.
  - destruct (unreserved c1) eqn:E;
      [rewrite (encode_cons_unreserved _ _ E) in H
      | rewrite (encode_cons_escaped _ _ E) in H]; discriminate.
  - destruct (unreserved c1) eqn:E1, (unreserved c2) eqn:E2.
    + rewrite (encode_cons_unreserved _ _ E1),
        (encode_cons_unreserved _ _ E2) in H.
      inversion H; subst. f_equal. now apply IH.
    + rewrite (encode_cons_unreserved _ _ E1),
        (encode_cons_escaped _ _ E2) in H.
      inversion H; subst. discriminate.
    + rewrite (encode_cons_escaped _ _ E1),
        (encode_cons_unreserved _ _ E2) in H.
      inversion H; subst. discriminate.
    + rewrite (encode_cons_escaped _ _ E1),
        (encode_cons_escaped _ _ E2) in H.
      pose proof (nat_of_ascii_bound c1) as B1.
      pose proof (nat_of_ascii_bound c2) as B2.
      assert (D1 : nat_of_ascii c1 / 16 < 16)
        by (apply Nat.Div0.div_lt_upper_bound; lia).
      assert (D2 : nat_of_ascii c2 / 16 < 16)
        by (apply Nat.Div0.div_lt_upper_bound; lia).
      assert (M1 : nat_of_ascii c1 mod 16 < 16)
        by (apply Nat.mod_upper_bound; lia).
      assert (M2 : nat_of_ascii c2 mod 16 < 16)
        by (apply Nat.mod_upper_bound; lia).
      pose proof (Nat.div_mod_eq (nat_of_ascii c1) 16) as Q1.
      pose proof (Nat.div_mod_eq (nat_of_ascii c2) 16) as Q2.
      remember (nat_of_ascii c1 / 16) as h1.
      remember (nat_of_ascii c2 / 16) as h2.
      remember (nat_of_ascii c1 mod 16) as l1.
      remember (nat_of_ascii c2 mod 16) as l2.
      injection H as Hi Lo T.
      apply hex_digit_inj in Hi; [ | assumption | assumption].
      apply hex_digit_inj in Lo; [ | assumption | assumption].
      assert (N : nat_of_ascii c1 = nat_of_ascii c2) by congruence.
      f_equal; [ | now apply IH].
      rewrite <- (ascii_nat_embedding c1), <- (ascii_nat_embedding c2).
      now rewrite N.
Qed.

End BuiltinsFacts.

(* ===================================================================== *)
(** ** The contact form                                                    *)
(* ===================================================================== *)

Module ContactFacts.
Import Js JsFacts Builtins BuiltinsFacts Contact.

(** X2: a change event sets the field it names and no other: the named
    field holds the typed value, every other name reads as before, and when
    the name is one of the form's fields the set of fields stays the same. *)
Theorem handleChange_sets_one_field name value formData :
  member (handleChange name value formData) name = VString value
  /\ (forall other, other <> name ->
        member (handleChange name value formData) other = member formData other)
  /\ (own name formData <> None ->
        keys (handleChange name value formData) = keys formData).
Proof.
  unfold handleChange. split; [apply member_assign_same | ].
  split; [intros other N; now apply member_assign_other | apply keys_assign].
Qed.

Lemma handleChange_sets_one_field_witness :
  member (handleChange "email" "a@b.c" emptyForm) "subject" = VString ""
  /\ keys (handleChange "email" "a@b.c" emptyForm)
     = ["name"; "email"; "subject"; "message"].
Proof.
  destruct (handleChange_sets_one_field "email" "a@b.c" emptyForm)
    as [_ [O K]].
  split.
  - rewrite (O "subject"); [reflexivity | discriminate].
  - rewrite K; [reflexivity | discriminate].
Defined.

Lemma edits_app es1 es2 formData :
  edits (es1 ++ es2)%list formData = edits es2 (edits es1 formData).
Proof. apply fold_left_app. Qed.

(** X3: after any run of change events a field holds the value of the last
    event that named it, and what it held before if none did. *)
Theorem edits_last_wins es formData name :
  member (edits es formData) name =
    match List.find (fun e => String.eqb (fst e) name) (List.rev es) with
    | Some e => VString (snd e)
    | None => member formData name
    end.
Proof.
  induction es as [ | [n v] es IH] using rev_ind; [reflexivity | ].
  rewrite edits_app, rev_app_distr. cbn [rev app find fst snd edits fold_left].
  destruct (String.eqb_spec n name) as [-> | N].
  - unfold handleChange. apply member_assign_same.
  - unfold handleChange. rewrite member_assign_other by congruence. exact IH.
Qed.

Lemma every_append f a b :
  every f (String.append a b) = every f a && every f b.
Proof.
  induction a as [ | c a IH]; [reflexivity | ].
  rewrite append_cons. cbn [every]. rewrite IH. now rewrite andb_assoc.
Qed.

Lemma encode_link_chars s : every link_char (encodeURIComponent s) = true.
Proof.
  induction s as [ | c rest IH]; [reflexivity | ].
  destruct (unreserved c) eqn:E.
  - rewrite (encode_cons_unreserved _ _ E). cbn [every]. rewrite IH.
    unfold link_char. now rewrite E.
  - rewrite (encode_cons_escaped _ _ E). cbn [every]. rewrite IH.
    unfold link_char. rewrite !hex_digit_unreserved. reflexivity.
Qed.

(** X4: whatever the visitor typed, the link is one mailto address with one
    query of two fields: it consists of unreserved characters, percent
    escapes and the punctuation of the fixed parts, with exactly one [?] and
    exactly one [&], and no space or line break. *)
Theorem handleSubmit_well_formed formData :
  every link_char (handleSubmit formData) = true
  /\ occurrences "?" (handleSubmit formData) = 1
  /\ occurrences "&" (handleSubmit formData) = 1
  /\ occurrences " " (handleSubmit formData) = 0
  /\ occurrences "010" (handleSubmit formData) = 0.
Proof.
  unfold handleSubmit. repeat split.
  - rewrite !every_append, !encode_link_chars. reflexivity.
  - rewrite !occurrences_append, !encode_occurrences by (reflexivity || discriminate).
    reflexivity.
  - rewrite !occurrences_append, !encode_occurrences by (reflexivity || discriminate).
    reflexivity.
  - rewrite !occurrences_append, !encode_occurrences by (reflexivity || discriminate).
    reflexivity.
  - rewrite !occurrences_append, !encode_occurrences by (reflexivity || discriminate).
    reflexivity.
Qed.

Lemma append_inv_head p a b :
  String.append p a = String.append p b -> a = b.
Proof.
  induction p as [ | c p IH]; [trivial | ].
  rewrite !append_cons. intros H. injection H as H. now apply IH.
Qed.

(** Two texts free of [c], each followed by [c], agree when the wholes do. *)
Lemma cut_at_first c u v x y :
  occurrences c u = 0 -> occurrences c v = 0 ->
  String.append u (String c x) = String.append v (String c y) ->
  u = v /\ x = y.
Proof.
  revert v. induction u as [ | a u IH]; intros [ | b v] U V H.
  - rewrite !append_nil in H. injection H as H. now split.
  - rewrite append_nil, append_cons in H. injection H as H _. subst b.
    cbn [occurrences] in V. rewrite Ascii.eqb_refl in V. discriminate.
  - rewrite append_nil, append_cons in H. injection H as H _. subst a.
    cbn [occurrences] in U. rewrite Ascii.eqb_refl in U. discriminate.
  - rewrite !append_cons in H. injection H as H1 H2. subst b.
    cbn [occurrences] in U, V.
    destruct (Ascii.eqb a c); [discriminate | ].
    destruct (IH v U V H2) as [-> ->]. now split.
Qed.

(** X5: the link keeps subject and body apart and loses nothing of either:
    two forms with the same link have the same subject text and the same
    body text. *)
Theorem handleSubmit_injective f1 f2 :
  handleSubmit f1 = handleSubmit f2 ->
  to_string (member f1 "subject") = to_string (member f2 "subject")
  /\ body f1 = body f2.
Proof.
  unfold handleSubmit. intros H. apply append_inv_head in H.
  change (String.append "&body=" (encodeURIComponent (body f1)))
    with (String "&" (String.append "body=" (encodeURIComponent (body f1)))) in H.
  change (String.append "&body=" (encodeURIComponent (body f2)))
    with (String "&" (String.append "body=" (encodeURIComponent (body f2)))) in H.
  apply cut_at_first in H;
    [ | apply encode_occurrences; (reflexivity || discriminate)
      | apply encode_occurrences; (reflexivity || discriminate)].
  destruct H as [S B]. apply append_inv_head in B.
  split; now apply encode_injective.
Qed.

Lemma handleSubmit_injective_witness :
  to_string (member (handleChange "subject" "Hi" emptyForm) "subject")
  = to_string (member (edits [("subject", "Hello"); ("subject", "Hi")] emptyForm)
                 "subject")
  /\ body (handleChange "subject" "Hi" emptyForm)
     = body (edits [("subject", "Hello"); ("subject", "Hi")] emptyForm).
Proof.
  apply handleSubmit_injective. reflexivity.
Defined.

End ContactFacts.

(* ===================================================================== *)
(** ** The locale state manager, continued                                 *)
(* ===================================================================== *)

Module UseLanguageRuns.
Import Js JsFacts Builtins BuiltinsFacts UseLanguage UseLanguageFacts Runs.

(** A call with the code that is active already leaves the state as it
    is. *)
Lemma switchLanguage_active code a :
  currentLanguage a = code -> switchLanguage code a = a.
Proof.
  intros <-. unfold switchLanguage, switchLanguage_call, after_render.
  destruct (supported (currentLanguage a)).
  - cbn [setCurrentLanguage currentLanguage]. rewrite String.eqb_refl.
    apply setCurrentLanguage_same.
  - now rewrite String.eqb_refl.
Qed.

(** X6: switching twice to the same code is switching once, for every
    code, registered or not. *)
Theorem switchLanguage_idempotent code a :
  switchLanguage code (switchLanguage code a) = switchLanguage code a.
Proof.
  destruct (supported code) eqn:S.
  - apply switchLanguage_active. now apply switchLanguage_current.
  - now rewrite !switchLanguage_rejected.
Qed.

Lemma persist_other_keys a k :
  k <> STORAGE_KEY -> localStorage (persist a) !! k = localStorage a !! k.
Proof.
  intros N. unfold persist. cbn [localStorage].
  apply lookup_insert_ne. congruence.
Qed.

(** X7: the hook writes one storage entry only: neither the first render
    nor any [switchLanguage] changes what is stored under a key other than
    ["preferred-language"]. *)
Theorem storage_other_keys_untouched k :
  k <> "preferred-language" ->
  (forall storage nav doc,
      localStorage (mount storage nav doc) !! k = storage !! k)
  /\ (forall code a,
        localStorage (switchLanguage code a) !! k = localStorage a !! k).
Proof.
  intros N. split.
  - intros storage nav doc. unfold mount. now rewrite persist_other_keys.
  - intros code a. unfold switchLanguage, switchLanguage_call, after_render.
    destruct (supported code).
    + cbn [setCurrentLanguage currentLanguage].
      destruct (String.eqb code (currentLanguage a)); [reflexivity | ].
      now rewrite persist_other_keys.
    + now rewrite String.eqb_refl.
Qed.

Lemma storage_other_keys_untouched_witness :
  localStorage (switchLanguage "tr" (mount (<["theme" := "dark"]> ∅) "en-US"
                                       fresh_document)) !! "theme"
  = Some "dark".
Proof.
  destruct (storage_other_keys_untouched "theme") as [M S]; [discriminate | ].
  rewrite S, M. apply lookup_insert_eq.
Defined.

Lemma reachable_stored a :
  reachable a -> localStorage a !! STORAGE_KEY = Some (currentLanguage a).
Proof. intros R. now apply reachable_effects. Qed.

Lemma supported_nonempty c : supported c = true -> truthy (VString c) = true.
Proof. destruct c; [discriminate | reflexivity]. Qed.

(** X8: a reload restores the active language from every state the hook
    reaches: the initialiser run on the storage it left behind yields the
    active code, whatever the browser reports. *)
Theorem reload_restores a nav :
  reachable a -> initialLanguage (localStorage a) nav = currentLanguage a.
Proof.
  intros R. unfold initialLanguage. rewrite (reachable_stored a R).
  pose proof (reachable_supported a R) as S.
  now rewrite (supported_nonempty _ S), S.
Qed.

Lemma reload_restores_witness :
  initialLanguage
    (localStorage (switchLanguage "it" (mount ∅ "tr-TR" fresh_document)))
    "en-US" = "it".
Proof.
  exact (reload_restores
           (switchLanguage "it" (mount ∅ "tr-TR" fresh_document)) "en-US"
           (reachable_switch "it" _ (reachable_mount ∅ "tr-TR" fresh_document))).
Defined.

Lemma switchLanguages_app codes1 codes2 a :
  switchLanguages (codes1 ++ codes2)%list a
  = switchLanguages codes2 (switchLanguages codes1 a).
Proof. apply fold_left_app. Qed.

(** X9: after a run of [switchLanguage] calls the active code is the last
    code of the run that passes the guard, and the code from before the run
    when none does. *)
Theorem switchLanguages_last_wins codes a :
  currentLanguage (switchLanguages codes a) =
    match List.find supported (List.rev codes) with
    | Some code => code
    | None => currentLanguage a
    end.
Proof.
  induction codes as [ | code codes IH] using rev_ind; [reflexivity | ].
  rewrite switchLanguages_app, rev_app_distr.
  cbn [rev List.app find switchLanguages fold_left].
  destruct (supported code) eqn:S.
  - now apply switchLanguage_current.
  - now rewrite switchLanguage_rejected.
Qed.

(** X10: the primary subtag is the part of the browser's language before
    its first hyphen: it contains no hyphen, the language is the subtag
    alone or the subtag followed by a hyphen and more, and a language
    without a hyphen is its own subtag. *)
Theorem primary_subtag_is_prefix nav :
  occurrences "-" (primary_subtag nav) = 0
  /\ (nav = primary_subtag nav
      \/ exists rest,
           nav = String.append (primary_subtag nav) (String "-" rest))
  /\ (occurrences "-" nav = 0 -> primary_subtag nav = nav).
Proof.
  unfold primary_subtag.
  pose proof (join_split "-" nav) as J.
  pose proof (split_segments "-" nav) as F.
  destruct (split "-" nav) as [ | seg segs] eqn:E.
  { now apply split_nonempty in E. }
  cbn [hd].
  assert (O : occurrences "-" seg = 0) by (apply F; now left).
  assert (D : nav = seg
              \/ exists rest, nav = String.append seg (String "-" rest)).
  { destruct segs as [ | seg' segs'].
    - left. now rewrite <- J.
    - right. exists (join "-" (seg' :: segs')). now rewrite <- J. }
  split; [exact O | ]. split; [exact D | ].
  intros Z. destruct D as [D | [rest D]]; [now symmetry | ].
  rewrite D, occurrences_append in Z. cbn [occurrences] in Z.
  rewrite Ascii.eqb_refl in Z. lia.
Qed.

Lemma primary_subtag_is_prefix_witness : primary_subtag "fr" = "fr".
Proof.
  apply (primary_subtag_is_prefix "fr"). reflexivity.
Defined.

(** X21: what the registry test lets through.  [SUPPORTED_LANGUAGES[code]]
    is truthy for the four registered codes and for the twelve member names
    of [Object.prototype], and for no other string; every other code is
    turned away by [switchLanguage] without any change. *)
Theorem guard_accepts code :
  (supported code = true <-> In code accepted_names)
  /\ (~ In code accepted_names -> forall a, switchLanguage code a = a).
Proof.
  assert (G : supported code = true <-> In code accepted_names).
  { split.
    - unfold supported, member, SUPPORTED_LANGUAGES, Object_prototype,
        Object_prototype_functions, accepted_names.
      cbn [own lookup_name In].
      repeat match goal with
             | |- context [String.eqb code ?k] =>
                 destruct (String.eqb_spec code k) as [-> | ?];
                   [intros _; tauto | ]
             end.
      discriminate.
    - unfold accepted_names. cbn [In]. intros H.
      repeat (destruct H as [<- | H]; [reflexivity | ]). contradiction. }
  split; [exact G | ].
  intros N a. apply switchLanguage_rejected.
  destruct (supported code) eqn:S; [ | reflexivity].
  exfalso. apply N. now apply G.
Qed.

Lemma guard_accepts_witness :
  switchLanguage "de" (mount ∅ "tr-TR" fresh_document)
  = mount ∅ "tr-TR" fresh_document.
Proof.
  apply (guard_accepts "de"). cbn [In accepted_names].
  intros H. repeat (destruct H as [H | H]; [discriminate H | ]). exact H.
Defined.

End UseLanguageRuns.

(* ===================================================================== *)
(** ** The language menu                                                   *)
(* ===================================================================== *)

Module LanguageSwitcherFacts.
Import Js JsFacts Builtins UseLanguage UseLanguageFacts LanguageSwitcher.

Lemma languages_cases language :
  In language languages ->
  language = locale "en" "English" "🇺🇸"
  \/ language = locale "tr" "Türkçe" "🇹🇷"
  \/ language = locale "ar" "العربية" "🇸🇦"
  \/ language = locale "it" "Italiano" "🇮🇹".
Proof.
  unfold languages, values, SUPPORTED_LANGUAGES. cbn [map snd In].
  intros [<- | [<- | [<- | [<- | []]]]]; tauto.
Qed.

(** Every entry of the menu carries a registered code, and a click on the
    entry makes that code the active one. *)
Lemma click_current language s :
  In language languages ->
  code language = VString (currentLanguage (context (click language s)))
  /\ registered (currentLanguage (context (click language s))) = true.
Proof.
  intros H. apply languages_cases in H.
  destruct H as [-> | [-> | [-> | ->]]];
    unfold click, handleLanguageChange; cbn [context];
    rewrite switchLanguage_current by reflexivity; split; reflexivity.
Qed.

(** X11: a click on an entry of the menu closes the menu, makes the
    entry's code the active one, and leaves that entry, and no other, shown
    as selected. *)
Theorem click_selects_entry language s :
  In language languages ->
  isOpen (click language s) = false
  /\ code language = VString (currentLanguage (context (click language s)))
  /\ (forall other, In other languages ->
        (selected (click language s) other = true <-> other = language)).
Proof.
  intros H. split; [reflexivity | ].
  destruct (click_current language s H) as [C _]. split; [exact C | ].
  intros other O. unfold selected.
  remember (currentLanguage (context (click language s))) as cur eqn:Ecur.
  clear Ecur.
  apply languages_cases in H. apply languages_cases in O.
  destruct H as [-> | [-> | [-> | ->]]];
    injection C as C; subst cur;
    destruct O as [-> | [-> | [-> | ->]]];
    (split; intros E; first [reflexivity | discriminate E]).
Qed.

Lemma click_selects_entry_witness :
  selected (click (locale "ar" "العربية" "🇸🇦")
              {| isOpen := true;
                 context := mount ∅ "en-US" fresh_document |})
           (locale "ar" "العربية" "🇸🇦") = true.
Proof.
  apply (click_selects_entry (locale "ar" "العربية" "🇸🇦")).
  - right. right. left. reflexivity.
  - right. right. left. reflexivity.
  - reflexivity.
Defined.

(** X12: the menu shows one entry as selected when the active code is
    registered, and none otherwise. *)
Theorem selected_entries s :
  List.length (List.filter (selected s) languages)
  = if registered (currentLanguage (context s)) then 1 else 0.
Proof.
  unfold selected, registered, languages, values, SUPPORTED_LANGUAGES.
  generalize (currentLanguage (context s)) as cur. intros cur.
  cbn [map snd List.filter code locale member own String.eqb Ascii.eqb
       Bool.eqb].
  destruct (String.eqb_spec cur "en") as [-> | ?]; [reflexivity | ].
  destruct (String.eqb_spec cur "tr") as [-> | ?]; [reflexivity | ].
  destruct (String.eqb_spec cur "ar") as [-> | ?]; [reflexivity | ].
  destruct (String.eqb_spec cur "it") as [-> | ?]; reflexivity.
Qed.

Lemma supported_plain c :
  supported c = true -> Object_prototype c = VUndefined ->
  registered c = true.
Proof.
  intros S P. apply supported_spec in S. destruct S as [S | S]; [exact S | ].
  rewrite P in S. discriminate.
Qed.

Lemma initialLanguage_registered storage nav :
  (forall c, storage !! STORAGE_KEY = Some c -> Object_prototype c = VUndefined) ->
  Object_prototype (primary_subtag nav) = VUndefined ->
  registered (initialLanguage storage nav) = true.
Proof.
  intros HS HB. unfold initialLanguage.
  assert (F : registered (if supported (primary_subtag nav)
                          then primary_subtag nav else DEFAULT_LANGUAGE) = true).
  { destruct (supported (primary_subtag nav)) eqn:E; [ | reflexivity].
    now apply supported_plain. }
  destruct (storage !! STORAGE_KEY) as [saved | ] eqn:E; [ | exact F].
  destruct (truthy (VString saved)); cbn [andb]; [ | exact F].
  destruct (supported saved) eqn:S; [ | exact F].
  apply supported_plain; [exact S | now apply HS].
Qed.

(** X13: as the application is wired, with the menu the only caller of
    [switchLanguage], the active code is a key of the registry throughout:
    if neither the stored code nor the browser's subtag names a member of
    [Object.prototype], the code is registered after the first render and
    after every click that follows. *)
Theorem menu_keeps_registered storage nav doc s :
  (forall c, storage !! STORAGE_KEY = Some c -> Object_prototype c = VUndefined) ->
  Object_prototype (primary_subtag nav) = VUndefined ->
  follows {| isOpen := false; context := mount storage nav doc |} s ->
  registered (currentLanguage (context s)) = true.
Proof.
  intros HS HB F. induction F as [ | s F IH | language s F IH L].
  - cbn [context]. unfold mount. rewrite persist_current.
    cbn [currentLanguage]. now apply initialLanguage_registered.
  - exact IH.
  - now apply click_current.
Qed.

Lemma menu_keeps_registered_witness :
  registered
    (currentLanguage
       (context (click (locale "tr" "Türkçe" "🇹🇷")
                   (toggleDropdown
                      {| isOpen := false;
                         context := mount ∅ "de-DE" fresh_document |}))))
  = true.
Proof.
  apply (menu_keeps_registered ∅ "de-DE" fresh_document).
  - intros c H. rewrite lookup_empty in H. discriminate H.
  - reflexivity.
  - apply follows_click; [apply follows_toggle, follows_refl | ].
    right. left. reflexivity.
Defined.

End LanguageSwitcherFacts.

(* ===================================================================== *)
(** ** Interpolation, continued                                            *)
(* ===================================================================== *)

Module InterpolationFacts.
Import Js JsFacts Builtins BuiltinsFacts LanguageContext LanguageContextFacts.

Lemma match_here_other c rest :
  c <> "{"%char -> match_here (String c rest) = None.
Proof.
  intros N. destruct c as [[] [] [] [] [] [] [] []]; try reflexivity.
  exfalso. now apply N.
Qed.

Lemma occurrences_cons_zero c x rest :
  occurrences c (String x rest) = 0 -> x <> c /\ occurrences c rest = 0.
Proof.
  cbn [occurrences]. destruct (Ascii.eqb_spec x c); [discriminate | ].
  intros H. now split.
Qed.

(** Text in front of the first brace is copied. *)
Lemma replace_prefix f pre s :
  occurrences "{" pre = 0 ->
  replace f (String.append pre s)
  = bind (replace f s) (fun r => Return (String.append pre r)).
Proof.
  induction pre as [ | c pre IH]; intros H.
  - rewrite append_nil. now destruct (replace f s).
  - apply occurrences_cons_zero in H. destruct H as [N H].
    rewrite append_cons, replace_copy by now apply match_here_other.
    rewrite (IH H). now destruct (replace f s).
Qed.

Lemma replace_plain f s : occurrences "{" s = 0 -> replace f s = Return s.
Proof.
  induction s as [ | c s IH]; intros H; [reflexivity | ].
  apply occurrences_cons_zero in H. destruct H as [N H].
  rewrite replace_copy by now apply match_here_other.
  now rewrite (IH H).
Qed.

Lemma span_word_name p tail :
  every is_word p = true ->
  span_word (String.append p (String "}" tail)) = (p, String "}" tail).
Proof.
  induction p as [ | c p IH]; intros H; [reflexivity | ].
  cbn [every] in H. apply andb_true_iff in H. destruct H as [W H].
  rewrite append_cons. cbn [span_word]. rewrite W. now rewrite IH.
Qed.

(** A non-empty run of word characters between double braces is a match. *)
Lemma match_here_name p rest :
  p <> "" -> every is_word p = true ->
  match_here (String.append (token p) rest) = Some p.
Proof.
  intros N W.
  replace (String.append (token p) rest)
    with (String "{" (String "{"
            (String.append p (String "}" (String "}" rest))))).
  - cbn [match_here]. rewrite (span_word_name p _ W).
    destruct p; [contradiction | reflexivity].
  - unfold token. rewrite !append_cons, !append_nil, append_assoc.
    reflexivity.
Qed.

(** The first placeholder of a text is answered by the callback, the text
    before it is copied, and the scan goes on behind it. *)
Lemma interpolate_one f pre p rest :
  occurrences "{" pre = 0 -> p <> "" -> every is_word p = true ->
  replace f (String.append pre (String.append (token p) rest))
  = bind (f (token p) p) (fun x =>
    bind (replace f rest) (fun r =>
    Return (String.append pre (String.append x r)))).
Proof.
  intros B N W. rewrite (replace_prefix f pre _ B).
  rewrite (replace_match f p rest (match_here_name p rest N W)).
  destruct (f (token p) p); [ | reflexivity]. cbn [bind].
  now destruct (replace f rest).
Qed.

Section Interpolation.

Variable inherited : value -> string -> result value.
Variable convert : value -> result string.
Variable translations : object.
Variable currentLanguage : string.

Local Abbreviation candidate := (candidate inherited translations currentLanguage).
Local Abbreviation t := (t inherited convert translations currentLanguage).

(** X14: a translation without an opening brace is returned as it stands:
    for such a text the parameters make no difference. *)
Theorem t_plain_text key params s :
  candidate key = Return (VString s) -> occurrences "{" s = 0 ->
  t key params = t key [].
Proof.
  intros C B. rewrite !t_candidate, C. cbn [bind].
  destruct (truthy (VString s)); cbn [negb has_keys]; [ | reflexivity].
  destruct (has_keys params); [ | reflexivity].
  now rewrite replace_plain.
Qed.


End Interpolation.

Lemma t_plain_text_witness :
  t bare no_convert translations_excerpt "tr" "nav.home"
    [("year", VNumber 2024)]
  = t bare no_convert translations_excerpt "tr" "nav.home" [].
Proof.
  apply (t_plain_text bare no_convert translations_excerpt "tr" "nav.home" _
           "Ana Sayfa");
    reflexivity.
Defined.


(** X16: the footer line.  For every year other than 0 the copyright line
    of each catalog shows what [ToString] makes of the year in place of
    [{{year}}]; for the integers up to 2^53, which the years a date can
    have are among, that is the year in decimal. *)
Theorem copyright_shows_year inherited convert currentYear :
  currentYear <> 0%Z ->
  (Navigation.copyright inherited convert translations_excerpt "en" currentYear
   = bind (ToString convert (VNumber currentYear)) (fun year =>
     Return (VString (String.append "© "
       (String.append year " Serhat Soysal. All rights reserved.")))))
  /\ (Navigation.copyright inherited convert translations_excerpt "tr"
        currentYear
      = bind (ToString convert (VNumber currentYear)) (fun year =>
        Return (VString (String.append "© "
          (String.append year " Serhat Soysal. Tüm hakları saklıdır.")))))
  /\ (Navigation.copyright inherited convert translations_excerpt "it"
        currentYear
      = bind (ToString convert (VNumber currentYear)) (fun year =>
        Return (VString (String.append "© "
          (String.append year " Serhat Soysal. Tutti i diritti riservati.")))))
  /\ ((Z.abs currentYear <= 9007199254740992)%Z ->
      ToString convert (VNumber currentYear)
      = Return (to_string (VNumber currentYear))).
Proof.
  intros N.
  assert (T : truthy (VNumber currentYear) = true).
  { cbn [truthy]. apply negb_true_iff. now apply Z.eqb_neq. }
  assert (S : forall rest,
             occurrences "{" rest = 0 ->
             replace (substitute convert [("year", VNumber currentYear)])
               (String.append "© " (String.append (token "year") rest))
             = bind (ToString convert (VNumber currentYear)) (fun year =>
               Return (String.append "© " (String.append year rest)))).
  { intros rest B. rewrite interpolate_one by (reflexivity || discriminate).
    unfold substitute at 1. cbn [member own String.eqb Ascii.eqb Bool.eqb].
    rewrite T. destruct (ToString convert (VNumber currentYear));
      [ | reflexivity].
    cbn [bind]. now rewrite (replace_plain _ rest B). }
  unfold Navigation.copyright. rewrite !t_candidate.
  split; [ | split; [ | split]].
  - change (candidate inherited translations_excerpt "en" "footer.copyright")
      with (Return (VString (String.append "© " (String.append (token "year")
              " Serhat Soysal. All rights reserved.")))).
    cbn [bind truthy negb has_keys]. rewrite S by reflexivity.
    now destruct (ToString convert (VNumber currentYear)).
  - change (candidate inherited translations_excerpt "tr" "footer.copyright")
      with (Return (VString (String.append "© " (String.append (token "year")
              " Serhat Soysal. Tüm hakları saklıdır.")))).
    cbn [bind truthy negb has_keys]. rewrite S by reflexivity.
    now destruct (ToString convert (VNumber currentYear)).
  - change (candidate inherited translations_excerpt "it" "footer.copyright")
      with (Return (VString (String.append "© " (String.append (token "year")
              " Serhat Soysal. Tutti i diritti riservati.")))).
    cbn [bind truthy negb has_keys]. rewrite S by reflexivity.
    now destruct (ToString convert (VNumber currentYear)).
  - intros B. apply ToString_printable. cbn [printable].
    now apply Z.leb_le.
Qed.

Lemma copyright_shows_year_witness :
  Navigation.copyright bare no_convert translations_excerpt "en" 2025
  = Return (VString "© 2025 Serhat Soysal. All rights reserved.").
Proof.
  destruct (copyright_shows_year bare no_convert 2025) as [E [_ [_ P]]];
    [discriminate | ].
  rewrite E, P; [reflexivity | discriminate].
Defined.

End InterpolationFacts.

(* ===================================================================== *)
(** ** The navigation bar                                                  *)
(* ===================================================================== *)

Module NavigationFacts.
Import Js JsFacts Navigation.

(** X17: for every location at most one entry of the navigation bar is
    active, namely the one whose path is the location's path name; on the
    page of a blog post, [/blog/<slug>], none is. *)
Theorem active_items inherited convert translations currentLanguage pathname :
  let items := navItems inherited convert translations currentLanguage in
  let active := List.filter (fun item => isActive pathname (fst item)) items in
  List.length active
  = (if List.existsb (String.eqb pathname) (List.map fst items) then 1 else 0)
  /\ (forall slug,
        List.filter
          (fun item => isActive (String.append "/blog/" slug) (fst item)) items
        = []).
Proof.
  cbv zeta. unfold navItems, isActive. split.
  - cbn [List.filter fst map existsb].
    destruct (String.eqb_spec pathname "/") as [-> | ?]; [reflexivity | ].
    destruct (String.eqb_spec pathname "/about") as [-> | ?]; [reflexivity | ].
    destruct (String.eqb_spec pathname "/projects") as [-> | ?]; [reflexivity | ].
    destruct (String.eqb_spec pathname "/blog") as [-> | ?]; [reflexivity | ].
    destruct (String.eqb_spec pathname "/contact") as [-> | ?]; reflexivity.
  - intros slug. rewrite !append_cons, append_nil. reflexivity.
Qed.

End NavigationFacts.

(* ===================================================================== *)
(** ** The page of a blog post                                             *)
(* ===================================================================== *)

Module BlogPostFacts.
Import Js BlogPost.

(** On its own, the effect is a change of slug followed, if a post was
    found, by the end of the one load it started. *)
Lemma effect_as_events blogPosts slug o pg :
  effect blogPosts slug o pg
  = run blogPosts
      (match List.find (has_slug slug) blogPosts with
       | Some _ => [SlugChanges slug; LoadEnds o]
       | None => [SlugChanges slug]
       end) pg.
Proof.
  unfold effect. now destruct (List.find (has_slug slug) blogPosts).
Qed.

(** X18: a page opened on a slug.  Once loading has ended the spinner is
    gone; "Post Not Found" is shown exactly when no post has the slug;
    otherwise the first post with the slug is shown, with the text that
    arrived or, when the import or the fetch failed, with the stand-in
    text. *)
Theorem opened_page blogPosts slug o :
  let pg := effect blogPosts slug o initial in
  render pg <> Spinner
  /\ (render pg = PostNotFound <-> List.find (has_slug slug) blogPosts = None)
  /\ (forall p, List.find (has_slug slug) blogPosts = Some p ->
        render pg = Article p (match o with
                               | Text text => text
                               | ImportFails | FetchFails => notFoundContent
                               end)).
Proof.
  cbv zeta. unfold effect, lookup, settle, render.
  destruct (List.find (has_slug slug) blogPosts) as [found | ];
    cbn [loading post content initial].
  - split; [discriminate | ]. split; [split; discriminate | ].
    intros p E. now injection E as ->.
  - split; [discriminate | ]. split; [now split | discriminate].
Qed.

Lemma opened_page_witness :
  render (effect [[("slug", VString "ai-integration")]] "ai-integration"
            FetchFails initial)
  = Article [("slug", VString "ai-integration")] notFoundContent.
Proof.
  apply (opened_page [[("slug", VString "ai-integration")]] "ai-integration"
           FetchFails).
  reflexivity.
Defined.

(** X19: the page is not reset when the slug changes.  If a post is on
    show and the slug changes to one no post has, the page stays as it is:
    the article shown before remains, "Post Not Found" does not appear. *)
Theorem unknown_slug_keeps_article blogPosts slug o pg p :
  List.find (has_slug slug) blogPosts = None ->
  post pg = Some p -> loading pg = false ->
  render (effect blogPosts slug o pg) = render pg
  /\ render (effect blogPosts slug o pg) = Article p (content pg).
Proof.
  intros F P L. unfold effect, lookup, render. rewrite F.
  cbn [loading post content]. now rewrite P, L.
Qed.

Lemma unknown_slug_keeps_article_witness :
  render (effect [[("slug", VString "ai-integration")]] "no-such-post"
            ImportFails
            (effect [[("slug", VString "ai-integration")]] "ai-integration"
               (Text "# AI") initial))
  = Article [("slug", VString "ai-integration")] "# AI".
Proof.
  apply (unknown_slug_keeps_article
           [[("slug", VString "ai-integration")]] "no-such-post" ImportFails
           (effect [[("slug", VString "ai-integration")]] "ai-integration"
              (Text "# AI") initial)); reflexivity.
Defined.

(** X20: a page that stays mounted while the slug changes and loads end,
    in whatever order.  The effect has no cleanup and [loading] is never
    switched on again, so after any run of events: the post is the one the
    last change of slug that found a post put on show; the content is what
    the load that ended last left, whichever post it was started for; and
    the spinner is shown only as long as no load has ended and every slug
    had a post. *)
Theorem page_after_events blogPosts events pg :
  post (run blogPosts events pg)
  = match last_answer (found blogPosts) events with
    | Some p => Some p
    | None => post pg
    end
  /\ content (run blogPosts events pg)
     = match last_answer arrived events with
       | Some text => text
       | None => content pg
       end
  /\ loading (run blogPosts events pg)
     = loading pg && negb (List.existsb (stops blogPosts) events).
Proof.
  unfold run. revert pg.
  induction events as [ | e events IH]; intros pg.
  - cbn [List.fold_left last_answer List.existsb negb].
    now rewrite andb_true_r.
  - cbn [List.fold_left last_answer List.existsb].
    destruct (IH (step blogPosts pg e)) as [P [C L]].
    rewrite P, C, L. clear IH P C L.
    split; [ | split].
    + destruct (last_answer (found blogPosts) events); [reflexivity | ].
      destruct e as [slug | o]; cbn [step found]; [ | reflexivity].
      unfold lookup.
      now destruct (List.find (has_slug slug) blogPosts).
    + destruct (last_answer arrived events); [reflexivity | ].
      destruct e as [slug | o]; cbn [step arrived].
      * unfold lookup.
        now destruct (List.find (has_slug slug) blogPosts).
      * now destruct o.
    + destruct e as [slug | o]; cbn [step stops].
      * unfold lookup.
        destruct (List.find (has_slug slug) blogPosts);
          cbn [loading orb negb]; [reflexivity | ].
        now rewrite andb_false_r.
      * cbn [settle loading orb negb]. now rewrite andb_false_r.
Qed.

(** Two posts opened one after the other, the text of the first arriving
    last: the second post is shown over the text of the first. *)
Lemma page_after_events_witness :
  render
    (run [[("slug", VString "a")]; [("slug", VString "b")]]
       [SlugChanges "a"; SlugChanges "b"; LoadEnds (Text "text of b");
        LoadEnds (Text "text of a")] initial)
  = Article [("slug", VString "b")] "text of a".
Proof.
  destruct (page_after_events
              [[("slug", VString "a")]; [("slug", VString "b")]]
              [SlugChanges "a"; SlugChanges "b"; LoadEnds (Text "text of b");
               LoadEnds (Text "text of a")] initial) as [P [C L]].
  unfold render. rewrite P, C, L. reflexivity.
Defined.

End BlogPostFacts.
